(** * Site registry and connectivity check of the tikgen dashboard

    A shallow embedding of
    - [src/app/src/utils/wordpress/sites/route.ts]            (module [Sites]),
    - [src/app/src/utils/wordpress/test-connection/route.ts]  (module [TestConnection]),
    - [src/app/src/gui/WordPressManager.tsx]                  (module [Manager]),
    over a small model of the JavaScript values these files handle
    (module [JS]) and of the [config.json] file (module [Store]). *)

From stdpp Require Import base option list strings.
From Stdlib Require Import ZArith Lia.

Local Open Scope Z_scope.
Local Open Scope nat_scope.

(** ** JavaScript values as the routes see them *)
Module JS.

(** What [JSON.parse] and [request.json()] return.  An object is the list of
    its own properties in property order (keys of a parsed object are
    distinct).  Numbers are the integer ones: the routes only test a number
    for truthiness and compare two of them with [===]. *)
#[warnings="-register-all"]
Inductive json : Type :=
| JNull
| JBool (b : bool)
| JNum (n : Z)
| JStr (s : string)
| JArr (items : list json)
| JObj (props : list (string * json)).

(** A JavaScript value is a [json] or [undefined], written [None]. *)
Definition value : Type := option json.

(** Exceptions the three files can meet.  Every [catch] in them is a
    catch-all; the kind is kept to state what the handlers forget. *)
Inductive exn :=
| TypeError
| SyntaxError
| FsError
| FetchError
| AxiosError.

(** Outcome of evaluating an expression inside a [try] block. *)
Inductive completion (A : Type) : Type :=
| Normal (a : A)
| Throws (e : exn).
Global Arguments Normal {A} a.
Global Arguments Throws {A} e.

Global Instance completion_ret : MRet completion := λ A a, Normal a.
Global Instance completion_bind : MBind completion := λ A B f c,
  match c with
  | Normal a => f a
  | Throws e => Throws e
  end.

(** [o[k]] on the own properties of an object. *)
Fixpoint own_prop (k : string) (props : list (string * json)) : value :=
  match props with
  | [] => None
  | (k', v) :: rest => if String.eqb k' k then Some v else own_prop k rest
  end.

(** [o[k] = v]: an existing property keeps its place, a new one goes last. *)
Fixpoint assign (k : string) (v : json) (props : list (string * json))
  : list (string * json) :=
  match props with
  | [] => [(k, v)]
  | (k', v') :: rest =>
      if String.eqb k' k then (k', v) :: rest else (k', v') :: assign k v rest
  end.

(** [x.k] for a property name [k] that no built-in prototype defines
    ([url], [username], [password], [wordpress_sites], [connected]):
    reading it off [null] throws, off a primitive or an array gives
    [undefined]. *)
Definition get (x : json) (k : string) : completion value :=
  match x with
  | JNull => Throws TypeError
  | JObj props => Normal (own_prop k props)
  | _ => Normal None
  end.

(** ToBoolean. *)
Definition truthy (v : value) : bool :=
  match v with
  | None | Some JNull => false
  | Some (JBool b) => b
  | Some (JNum n) => negb (Z.eqb n 0)
  | Some (JStr s) => negb (String.eqb s "")
  | Some (JArr _) | Some (JObj _) => true
  end.

(** [a === b] for two values that come from two different parses (the file
    and a request body): primitives compare by value, an array or object is
    never identical to one parsed elsewhere. *)
Definition strict_eq (a b : value) : bool :=
  match a, b with
  | None, None => true
  | Some JNull, Some JNull => true
  | Some (JBool x), Some (JBool y) => Bool.eqb x y
  | Some (JNum x), Some (JNum y) => Z.eqb x y
  | Some (JStr x), Some (JStr y) => String.eqb x y
  | _, _ => false
  end.

(** The receiver of [.findIndex], [.filter]: anything but an array has no
    such method, and calling it is a [TypeError]. *)
Definition as_array (v : value) : completion (list json) :=
  match v with
  | Some (JArr items) => Normal items
  | _ => Throws TypeError
  end.

(** [a || b]. *)
Definition or_else (a : value) (b : json) : json :=
  match a with
  | Some j => if truthy a then j else b
  | None => b
  end.

(** An object literal on its way through [JSON.stringify]: a property that
    holds [undefined] is left out. *)
Definition literal (fields : list (string * value)) : json :=
  JObj (omap (λ kv, match kv.2 with Some j => Some (kv.1, j) | None => None end) fields).

End JS.
Import JS.

(** ** [config.json] *)
Module Store.

(** The file at [configPath], by what [JSON.parse(fs.readFileSync(..))]
    makes of it. *)
Inductive file :=
| Missing
| Garbled
| Document (doc : json).

(** [writable = false]: [fs.writeFileSync] throws on opening the file. *)
Record disk := Disk { config_file : file; writable : bool }.

Definition read_config (d : disk) : completion json :=
  match config_file d with
  | Missing => Throws FsError
  | Garbled => Throws SyntaxError
  | Document doc => Normal doc
  end.

(** [fs.writeFileSync(configPath, JSON.stringify(config, null, 2))]; the
    file then parses to [config]. *)
Definition write_config (d : disk) (config : json) : completion disk :=
  if writable d
  then Normal {| config_file := Document config; writable := true |}
  else Throws FsError.

End Store.
Import Store.

(** ** [config.json] as text *)
Module Text.

(** The text of the file is taken by its syntax tree, written with the
    constructors of [json]: [JNum n] stands for the integer literal [n] as
    the text spells it, and the members of an object come in the order of
    the text, a key as often as the text has it. *)

(** The double nearest to the integer [n], ties going to the even
    mantissa: the number [JSON.parse] makes of the literal [n] (for [n]
    short of the overflow to [Infinity], near [2 ^ 1024]). *)
Definition nearest_double (n : Z) : Z :=
  let a := Z.abs n in
  let excess := (Z.log2 a - 52)%Z in
  if (excess <=? 0)%Z then n
  else
    let unit := (2 ^ excess)%Z in
    let q := (a / unit)%Z in
    let r := (a mod unit)%Z in
    let half := (unit / 2)%Z in
    let q' := if (r <? half)%Z then q
              else if (half <? r)%Z then (q + 1)%Z
              else if Z.even q then q else (q + 1)%Z in
    (Z.sgn n * (q' * unit))%Z.

Definition digit_value (c : Ascii.ascii) : option Z :=
  let n := Z.of_nat (Ascii.nat_of_ascii c) in
  if ((48 <=? n) && (n <=? 57))%Z then Some (n - 48)%Z else None.

Fixpoint decimal (s : string) (acc : Z) : option Z :=
  match s with
  | EmptyString => Some acc
  | String c rest =>
      match digit_value c with
      | Some v => decimal rest (10 * acc + v)%Z
      | None => None
      end
  end.

(** A key that is an array index: the canonical decimal of an integer
    from [0] to [2 ^ 32 - 2]. *)
Definition array_index (k : string) : option Z :=
  match k with
  | EmptyString => None
  | String c rest =>
      if Nat.eqb (Ascii.nat_of_ascii c) 48 then (if String.eqb rest "" then Some 0%Z else None)
      else
        match decimal k 0 with
        | Some n => if (n <? 2 ^ 32 - 1)%Z then Some n else None
        | None => None
        end
  end.

Fixpoint insert_index (i : Z) (kv : string * json) (sorted : list (Z * (string * json)))
  : list (Z * (string * json)) :=
  match sorted with
  | [] => [(i, kv)]
  | (j, kv') :: rest =>
      if (i <? j)%Z then (i, kv) :: sorted else (j, kv') :: insert_index i kv rest
  end.

(** The order in which an object lists its properties: the array indices
    first, ascending, then the other keys as they were created. *)
Definition property_order (props : list (string * json)) : list (string * json) :=
  let indexed :=
    foldr (λ kv acc, match array_index kv.1 with
                     | Some i => insert_index i kv acc
                     | None => acc
                     end) [] props in
  (snd <$> indexed)
  ++ List.filter (λ kv, match array_index kv.1 with Some _ => false | None => true end)
       props.

(** [JSON.parse]: a number literal becomes a double, and the members of an
    object define its properties one after the other, a repeated key
    overwriting the value it had. *)
Fixpoint parse (t : json) : json :=
  match t with
  | JNum n => JNum (nearest_double n)
  | JArr items => JArr (List.map parse items)
  | JObj members =>
      JObj (property_order
              ((fix define (ms acc : list (string * json)) :=
                  match ms with
                  | [] => acc
                  | (k, x) :: rest => define rest (assign k (parse x) acc)
                  end) members []))
  | _ => t
  end.





End Text.

(** ** HTTP *)
Record response := Response { status : nat; body : json }.

(** [NextResponse.json(body)] and [NextResponse.json(body, { status })]. *)
Definition json_response (b : json) : response := Response 200 b.
Definition json_response_status (b : json) (s : nat) : response := Response s b.

(** [await request.json()]; [None] is a body that is not JSON. *)
Definition request_json (payload : option json) : completion json :=
  match payload with
  | Some j => Normal j
  | None => Throws SyntaxError
  end.

(** ** [sites/route.ts] *)
Module Sites.

Definition wordpress_sites : string := "wordpress_sites".

Definition error_body (msg : string) : json := JObj [("error", JStr msg)].
Definition success_body : json := JObj [("success", JBool true)].

Definition GET (d : disk) : response :=
  let attempt : completion json :=
    config ← read_config d;
    sites ← get config wordpress_sites;
    mret (or_else sites (JArr []))
  in
  match attempt with
  | Normal b => json_response b
  | Throws _ => json_response_status (error_body "Failed to load WordPress sites") 500
  end.

(** [(s) => s.url === site.url] *)
Definition same_url (site s : json) : completion bool :=
  a ← get s "url";
  b ← get site "url";
  mret (strict_eq a b).

(** [sites.findIndex(cb)] counted from [i]; [None] is [-1]. *)
Fixpoint findIndex_from (i : nat) (site : json) (sites : list json)
  : completion (option nat) :=
  match sites with
  | [] => Normal None
  | s :: rest =>
      hit ← same_url site s;
      if hit : bool then Normal (Some i) else findIndex_from (S i) site rest
  end.

Definition findIndex (site : json) (sites : list json) : completion (option nat) :=
  findIndex_from 0 site sites.

(** Lines 26-31: replace at [existingIndex], or [push]. *)
Definition put (existingIndex : option nat) (site : json) (sites : list json)
  : list json :=
  match existingIndex with
  | Some i => <[i := site]> sites
  | None => sites ++ [site]
  end.

Definition POST (payload : option json) (d : disk) : response * disk :=
  let attempt : completion disk :=
    site ← request_json payload;
    config ← read_config d;
    match config with
    | JNull => Throws TypeError
    | JObj props =>
        let props1 :=
          if truthy (own_prop wordpress_sites props) then props
          else assign wordpress_sites (JArr []) props in
        sites ← as_array (own_prop wordpress_sites props1);
        existingIndex ← findIndex site sites;
        write_config d
          (JObj (assign wordpress_sites (JArr (put existingIndex site sites)) props1))
    | JArr _ =>
        (* [wordpress_sites] becomes a named property of the array; the
           fresh [[]] has no match, [site] is pushed onto it, and
           [JSON.stringify] writes the array's elements only *)
        write_config d config
    | JBool _ | JNum _ | JStr _ =>
        (* a module is strict code: creating a property on a primitive
           throws *)
        Throws TypeError
    end
  in
  match attempt with
  | Normal d' => (json_response success_body, d')
  | Throws _ => (json_response_status (error_body "Failed to save WordPress site") 500, d)
  end.

(** [sites.filter((site) => site.url !== url)] *)
Fixpoint filter_out (url : value) (sites : list json) : completion (list json) :=
  match sites with
  | [] => Normal []
  | site :: rest =>
      u ← get site "url";
      kept ← filter_out url rest;
      mret (if negb (strict_eq u url) then site :: kept else kept)
  end.

Definition DELETE (payload : option json) (d : disk) : response * disk :=
  let attempt : completion disk :=
    data ← request_json payload;
    url ← get data "url";
    config ← read_config d;
    sites ← get config wordpress_sites;
    if truthy sites then
      match config with
      | JObj props =>
          items ← as_array sites;
          kept ← filter_out url items;
          write_config d (JObj (assign wordpress_sites (JArr kept) props))
      | _ => Normal d  (* not reached: only an object has a truthy property *)
      end
    else Normal d
  in
  match attempt with
  | Normal d' => (json_response success_body, d')
  | Throws _ => (json_response_status (error_body "Failed to delete WordPress site") 500, d)
  end.

End Sites.

(** ** [test-connection/route.ts] *)
Module TestConnection.

(** What comes back from the one request [axios.get] sends. *)
Inductive axios_outcome :=
| Responded (code : nat) (headers : list (string * string)) (data : json)
| NoRoute
| NoAnswer.

(** The WordPress side: the outcome of
    [axios.get(`${url}/wp-json/wp/v2/posts`, { auth: { username, password }, timeout: 5000 })]
    for the three values read off the request body.  [NoAnswer] is a
    request that is still unanswered after the 5000 ms. *)
Definition internet : Type := value → value → value → axios_outcome.

Record axios_response := AxiosResponse {
  headers : list (string * string);
  data : json
}.

(** axios resolves on a status in [200, 300) (its default
    [validateStatus]) and rejects on everything else. *)
Definition axios_get (o : axios_outcome) : completion axios_response :=
  match o with
  | Responded code hs d =>
      if (200 <=? code) && (code <? 300) then Normal (AxiosResponse hs d)
      else Throws AxiosError
  | NoRoute | NoAnswer => Throws AxiosError
  end.

(** [response.headers[name]], header names in lower case. *)
Fixpoint header (name : string) (hs : list (string * string)) : value :=
  match hs with
  | [] => None
  | (k, v) :: rest => if String.eqb k name then Some (JStr v) else header name rest
  end.

(** [data[0]] *)
Definition index0 (d : json) : completion value :=
  match d with
  | JNull => Throws TypeError
  | JArr items => Normal (items !! 0)
  | JObj props => Normal (own_prop "0" props)
  | JStr (String c _) => Normal (Some (JStr (String c "")))
  | JStr EmptyString | JBool _ | JNum _ => Normal None
  end.

(** [x?.date] *)
Definition optional_date (x : value) : value :=
  match x with
  | Some (JObj props) => own_prop "date" props
  | _ => None
  end.

Definition failure_body : json :=
  JObj [("connected", JBool false);
        ("error", JStr "Failed to connect to WordPress site")].

Definition POST (payload : option json) (net : internet) : response :=
  let attempt : completion json :=
    site ← request_json payload;
    url ← get site "url";
    username ← get site "username";
    password ← get site "password";
    response ← axios_get (net url username password);
    first ← index0 (data response);
    mret (literal [("connected", Some (JBool true));
                   ("version", header "x-wp-total" (headers response));
                   ("last_post", Some (or_else (optional_date first) JNull))])
  in
  match attempt with
  | Normal b => json_response b
  | Throws _ => json_response_status failure_body 500
  end.

End TestConnection.

(** ** [WordPressManager.tsx] *)
Module Manager.

(** The [newSite] form state: the six fields the inputs fill. *)
Record WordPressSite := {
  url : string;
  username : string;
  password : string;
  category : string;
  post_interval : string;
  max_posts_per_day : string
}.

Definition blank : WordPressSite :=
  {| url := ""; username := ""; password := ""; category := "technology";
     post_interval := "6"; max_posts_per_day := "4" |}.

Definition fields (s : WordPressSite) : list (string * value) :=
  [("url", Some (JStr (url s)));
   ("username", Some (JStr (username s)));
   ("password", Some (JStr (password s)));
   ("category", Some (JStr (category s)));
   ("post_interval", Some (JStr (post_interval s)));
   ("max_posts_per_day", Some (JStr (max_posts_per_day s)))].

(** [sites] is the array the component renders ([useState<WordPressSite[]>]);
    its elements are what the server sent or what [addSite] built. *)
Record state := State {
  sites : list json;
  loading : bool;
  newSite : WordPressSite
}.

(** What the component does to the outside. *)
Inductive effect :=
| Fetch (path method : string) (payload : option json)
| ToastError (msg : string)
| ToastSuccess (msg : string).

(** The dashboard's server side: the file, the WordPress sites it can
    probe, and whether the browser reaches it at all. *)
Record backend := Backend {
  files : disk;
  wordpress : TestConnection.internet;
  reachable : bool
}.

(** The two route files under the paths the component fetches; [None] is
    the framework's answer for any other request, which is not JSON. *)
Definition serve (path method : string) (payload : option json) (b : backend)
  : option response * backend :=
  if String.eqb path "/api/wordpress/sites" then
    if String.eqb method "GET" then (Some (Sites.GET (files b)), b)
    else if String.eqb method "POST" then
      let '(r, d) := Sites.POST payload (files b) in
      (Some r, Backend d (wordpress b) (reachable b))
    else if String.eqb method "DELETE" then
      let '(r, d) := Sites.DELETE payload (files b) in
      (Some r, Backend d (wordpress b) (reachable b))
    else (None, b)
  else if String.eqb path "/api/wordpress/test-connection" then
    if String.eqb method "POST"
    then (Some (TestConnection.POST payload (wordpress b)), b)
    else (None, b)
  else (None, b).

(** [await fetch(path, { method, body })] followed by
    [await response.json()]. *)
Definition fetch_json (path method : string) (payload : option json) (b : backend)
  : completion json * backend :=
  if reachable b then
    match serve path method payload b with
    | (Some r, b') => (Normal (body r), b')
    | (None, b') => (Throws SyntaxError, b')
    end
  else (Throws FetchError, b).

(** [loadSites]: the [data] handed to [setSites], if any. *)
Definition loadSites (b : backend) : option json * backend * list effect :=
  let call := Fetch "/api/wordpress/sites" "GET" None in
  match fetch_json "/api/wordpress/sites" "GET" None b with
  | (Normal d, b') => (Some d, b', [call])
  | (Throws _, b') => (None, b', [call; ToastError "Failed to load WordPress sites"])
  end.

Definition testConnection (site : WordPressSite) (b : backend)
  : value * backend * list effect :=
  let payload := Some (literal (fields site)) in
  let call := Fetch "/api/wordpress/test-connection" "POST" payload in
  match fetch_json "/api/wordpress/test-connection" "POST" payload b with
  | (Normal d, b') =>
      match get d "connected" with
      | Normal v => (v, b', [call])
      | Throws _ => (Some (JBool false), b', [call])
      end
  | (Throws _, b') => (Some (JBool false), b', [call])
  end.

(** [!s] for a string. *)
Definition empty (s : string) : bool := String.eqb s "".

(** [{ ...newSite, is_connected: isConnected }]; a property that holds
    [undefined] reads like an absent one and is not listed. *)
Definition merged (site : WordPressSite) (isConnected : value) : json :=
  literal (fields site ++ [("is_connected", isConnected)]).

(** With [sites] an array, nothing after [testConnection] can throw: the
    [catch] of [addSite] is dead and [finally] resets [loading]. *)
Definition addSite (st : state) (b : backend) : state * backend * list effect :=
  let candidate := newSite st in
  if empty (url candidate) || empty (username candidate) || empty (password candidate)
  then (st, b, [ToastError "Please fill in all required fields"])
  else
    let '(isConnected, b', calls) := testConnection candidate b in
    let updatedSites := sites st ++ [merged candidate isConnected] in
    (State updatedSites false blank, b',
     calls ++ [ToastSuccess "WordPress site added successfully"]).

Definition removeSite (target : string) (st : state) (b : backend)
  : state * backend * list effect :=
  match Sites.filter_out (Some (JStr target)) (sites st) with
  | Normal updatedSites =>
      (State updatedSites (loading st) (newSite st), b,
       [ToastSuccess "WordPress site removed successfully"])
  | Throws _ => (st, b, [ToastError "Failed to remove WordPress site"])
  end.

End Manager.

(** ** Vocabulary of the statements *)

(** The [url] a stored element or a request body carries. *)
Definition url_of (s : json) : value :=
  match s with
  | JObj props => own_prop "url" props
  | _ => None
  end.

Definition not_null (s : json) : bool :=
  match s with
  | JNull => false
  | _ => true
  end.

(** [s.url === url] *)
Definition url_matches (url : value) (s : json) : bool := strict_eq (url_of s) url.

(** The sites collection a document holds: the array under
    [wordpress_sites], the empty one when the key is absent or holds a falsy
    value, none when it holds anything else. *)
Definition collection (props : list (string * json)) : option (list json) :=
  match own_prop Sites.wordpress_sites props with
  | Some (JArr items) => Some items
  | v => if truthy v then None else Some []
  end.

(** The collection a disk holds. *)
Definition stored (d : disk) : option (list json) :=
  match config_file d with
  | Document (JObj props) => collection props
  | _ => None
  end.

(** The top-level properties of a document other than [wordpress_sites], in
    the order the document lists them. *)
Definition other_keys (props : list (string * json)) : list (string * json) :=
  filter (λ kv, kv.1 ≠ Sites.wordpress_sites) props.

(** What a handler may do to the file: an object keeps its other keys, and
    anything else stays as it is. *)
Definition frame (before after : file) : Prop :=
  match before, after with
  | Document (JObj props), Document (JObj props') => other_keys props' = other_keys props
  | _, _ => after = before
  end.

(** [x] sits before [y] in [l]. *)
Definition before_in (x y : json) (l : list json) : Prop :=
  ∃ i j, i < j ∧ l !! i = Some x ∧ l !! j = Some y.

(** A site record as the dashboard's form produces it. *)
Definition site (u user pass : string) : json :=
  JObj [("url", JStr u); ("username", JStr user); ("password", JStr pass);
        ("category", JStr "technology"); ("post_interval", JStr "6");
        ("max_posts_per_day", JStr "4")].

(** Sample data for the closed instances below. *)
Definition ann : json := site "https://a.example" "ann" "x".
Definition ann_again : json := site "https://a.example" "ann" "rotated".
Definition bob : json := site "https://b.example" "bob" "y".
Definition bob_again : json := site "https://b.example" "bob" "rotated".

Definition sample_props : list (string * json) :=
  [("theme", JStr "dark"); ("wordpress_sites", JArr [ann; bob])].

Definition sample_disk : disk := Disk (Document (JObj sample_props)) true.

(** An outcome on which [axios.get] rejects. *)
Definition failed (o : TestConnection.axios_outcome) : bool :=
  match o with
  | TestConnection.Responded code _ _ => negb ((200 <=? code) && (code <? 300))
  | TestConnection.NoRoute | TestConnection.NoAnswer => true
  end.

(** The [failureReason] that the specification's probe contract gives a
    failed outcome (its sections 4.3 and 7), written after the
    specification and not after the route. *)
Definition spec_failureReason (o : TestConnection.axios_outcome) : option string :=
  match o with
  | TestConnection.NoRoute => Some "network"
  | TestConnection.NoAnswer => Some "timeout"
  | TestConnection.Responded code _ _ =>
      if (200 <=? code) && (code <? 300) then None
      else if (code =? 401) || (code =? 403) then Some "auth"
      else Some "http-status"
  end.

(** The dates of a listing's first post, as [last_post] reports it. *)
Definition first_date (posts : list json) : json :=
  match posts with
  | [] => JNull
  | p :: _ => or_else (TestConnection.optional_date (Some p)) JNull
  end.

(** The calls among a component's effects, and those of them that go to
    the registry routes. *)
Definition is_call (e : Manager.effect) : bool :=
  match e with
  | Manager.Fetch _ _ _ => true
  | _ => false
  end.

Definition is_registry_call (e : Manager.effect) : bool :=
  match e with
  | Manager.Fetch path _ _ => String.eqb path "/api/wordpress/sites"
  | _ => false
  end.

Definition calls (effects : list Manager.effect) : list Manager.effect :=
  filter (λ e, is_call e) effects.

Definition registry_calls (effects : list Manager.effect) : list Manager.effect :=
  filter (λ e, is_registry_call e) effects.

(** A WordPress site that answers with two posts, and one that is down. *)
Definition two_posts : TestConnection.internet :=
  λ _ _ _, TestConnection.Responded 200 [("x-wp-total", "2")]
    (JArr [JObj [("id", JNum 7); ("date", JStr "2024-05-01T10:00:00")];
           JObj [("id", JNum 3); ("date", JStr "2024-04-01T10:00:00")]]).

Definition unreachable_host : TestConnection.internet := λ _ _ _, TestConnection.NoRoute.

Definition candidate : Manager.WordPressSite :=
  {| Manager.url := "https://a.example"; Manager.username := "ann";
     Manager.password := "x"; Manager.category := "technology";
     Manager.post_interval := "6"; Manager.max_posts_per_day := "4" |}.

Definition sample_backend : Manager.backend :=
  Manager.Backend sample_disk two_posts true.

(** The number of elements of [items] whose url is the string [u], and the
    invariant that no string url is carried twice. *)
Definition count_url (u : string) (items : list json) : nat :=
  length (filter (λ s, url_matches (Some (JStr u)) s) items).

Definition unique_urls (items : list json) : Prop := ∀ u, count_url u items ≤ 1.

(** A store the registry can work on: the file parses to an object that
    holds the collection [items], can be written, and no element of the
    collection is [null]. *)
Definition usable (d : disk) (items : list json) : Prop :=
  stored d = Some items ∧ writable d = true ∧ forallb not_null items = true.

(** A request to the registry with a JSON body, and the route that takes it. *)
Inductive registry_request :=
| Upsert (record : json)
| Remove (data : json).

Definition handle (r : registry_request) (d : disk) : response * disk :=
  match r with
  | Upsert record => Sites.POST (Some record) d
  | Remove data => Sites.DELETE (Some data) d
  end.

(** The requests of [rs] handled one after the other, with their responses. *)
Fixpoint handle_all (rs : list registry_request) (d : disk) : list response * disk :=
  match rs with
  | [] => ([], d)
  | r :: rest =>
      let '(resp, d1) := handle r d in
      let '(resps, d2) := handle_all rest d1 in
      (resp :: resps, d2)
  end.

(** A request the registry is meant for: a record with a string url, or a
    delete body that is not [null]. *)
Definition well_formed (r : registry_request) : bool :=
  match r with
  | Upsert record => match url_of record with Some (JStr _) => true | _ => false end
  | Remove data => not_null data
  end.

(** The property [k] of a value that is not [null]. *)
Definition field (k : string) (x : json) : value :=
  match x with
  | JObj props => own_prop k props
  | _ => None
  end.

(** Whether the check of [site0] against [net] comes out connected: the
    body is not [null], and the WordPress side answers with a status in
    [200, 300) and data that is not [null]. *)
Definition probe_ok (site0 : json) (net : TestConnection.internet) : bool :=
  not_null site0 &&
  match net (field "url" site0) (field "username" site0) (field "password" site0) with
  | TestConnection.Responded code _ d => (200 <=? code) && (code <? 300) && not_null d
  | _ => false
  end.

(** The same for the form's candidate, whose three values are strings. *)
Definition candidate_ok (c : Manager.WordPressSite) (net : TestConnection.internet) : bool :=
  match net (Some (JStr (Manager.url c))) (Some (JStr (Manager.username c)))
            (Some (JStr (Manager.password c))) with
  | TestConnection.Responded code _ d => (200 <=? code) && (code <? 300) && not_null d
  | _ => false
  end.

(** ** The handlers on small inputs *)

Example list_without_file :
  Sites.GET (Disk Missing true)
  = Response 500 (JObj [("error", JStr "Failed to load WordPress sites")]).
Proof. reflexivity. Qed.

Example list_without_key :
  Sites.GET (Disk (Document (JObj [("theme", JStr "dark")])) true) = Response 200 (JArr []).
Proof. reflexivity. Qed.

Example list_sample : Sites.GET sample_disk = Response 200 (JArr [ann; bob]).
Proof. reflexivity. Qed.

Example upsert_creates_the_key :
  Sites.POST (Some ann) (Disk (Document (JObj [("theme", JStr "dark")])) true)
  = (Response 200 (JObj [("success", JBool true)]),
     Disk (Document (JObj [("theme", JStr "dark"); ("wordpress_sites", JArr [ann])])) true).
Proof. reflexivity. Qed.

Example upsert_replaces_bob :
  Sites.POST (Some bob_again) sample_disk
  = (Response 200 (JObj [("success", JBool true)]),
     Disk (Document (JObj [("theme", JStr "dark");
                           ("wordpress_sites", JArr [ann; bob_again])])) true).
Proof. reflexivity. Qed.

Example upsert_into_a_number :
  let d := Disk (Document (JObj [("wordpress_sites", JNum 5)])) true in
  Sites.POST (Some ann) d
  = (Response 500 (JObj [("error", JStr "Failed to save WordPress site")]), d).
Proof. reflexivity. Qed.

Example upsert_past_a_null_element :
  let d := Disk (Document (JObj [("wordpress_sites", JArr [JNull; ann])])) true in
  Sites.POST (Some ann_again) d
  = (Response 500 (JObj [("error", JStr "Failed to save WordPress site")]), d).
Proof. reflexivity. Qed.

Example upsert_on_read_only_file :
  let d := Disk (Document (JObj sample_props)) false in
  Sites.POST (Some ann_again) d
  = (Response 500 (JObj [("error", JStr "Failed to save WordPress site")]), d).
Proof. reflexivity. Qed.

Example delete_without_key_does_not_write :
  let d := Disk (Document (JObj [("theme", JStr "dark")])) false in
  Sites.DELETE (Some (JObj [("url", JStr "https://a.example")])) d
  = (Response 200 (JObj [("success", JBool true)]), d).
Proof. reflexivity. Qed.

Example delete_on_read_only_file :
  let d := Disk (Document (JObj sample_props)) false in
  Sites.DELETE (Some (JObj [("url", JStr "https://missing.example")])) d
  = (Response 500 (JObj [("error", JStr "Failed to delete WordPress site")]), d).
Proof. reflexivity. Qed.

Example probe_two_posts :
  TestConnection.POST (Some ann) two_posts
  = Response 200 (JObj [("connected", JBool true); ("version", JStr "2");
                        ("last_post", JStr "2024-05-01T10:00:00")]).
Proof. reflexivity. Qed.

Example probe_empty_listing_without_header :
  TestConnection.POST (Some ann) (λ _ _ _, TestConnection.Responded 200 [] (JArr []))
  = Response 200 (JObj [("connected", JBool true); ("last_post", JNull)]).
Proof. reflexivity. Qed.

Example probe_unauthorized :
  TestConnection.POST (Some ann)
    (λ _ _ _, TestConnection.Responded 401 [] (JObj [("code", JStr "rest_forbidden")]))
  = Response 500 (JObj [("connected", JBool false);
                        ("error", JStr "Failed to connect to WordPress site")]).
Proof. reflexivity. Qed.

Example remove_ann :
  Manager.removeSite "https://a.example" (Manager.State [ann; bob] false Manager.blank)
    sample_backend
  = (Manager.State [bob] false Manager.blank, sample_backend,
     [Manager.ToastSuccess "WordPress site removed successfully"]).
Proof. reflexivity. Qed.

(** ** Facts about the value model *)

Lemma get_not_null (s : json) (k : string) :
  not_null s = true → ∃ v, get s k = Normal v.
Proof. destruct s; simpl; intros H; try discriminate; eauto. Qed.

Lemma get_url (s : json) : not_null s = true → get s "url" = Normal (url_of s).
Proof. by destruct s. Qed.

Lemma own_prop_assign_eq k v props : own_prop k (assign k v props) = Some v.
Proof.
  induction props as [|[k' v'] rest IH]; simpl.
  - by rewrite String.eqb_refl.
  - destruct (String.eqb k' k) eqn:E; simpl; rewrite E; [done | apply IH].
Qed.

Lemma own_prop_assign_ne k k' v props :
  k ≠ k' → own_prop k' (assign k v props) = own_prop k' props.
Proof.
  intros Hne. induction props as [|[k0 v0] rest IH]; simpl.
  - destruct (String.eqb_spec k k'); [done | reflexivity].
  - destruct (String.eqb_spec k0 k) as [->|Hk]; simpl.
    + destruct (String.eqb_spec k k'); [done | reflexivity].
    + destruct (String.eqb k0 k'); [reflexivity | apply IH].
Qed.

Lemma assign_assign k v w props : assign k w (assign k v props) = assign k w props.
Proof.
  induction props as [|[k' v'] rest IH]; simpl.
  - by rewrite String.eqb_refl.
  - destruct (String.eqb k' k) eqn:E; simpl; rewrite E; [done | by rewrite IH].
Qed.


Lemma other_keys_assign v props :
  other_keys (assign Sites.wordpress_sites v props) = other_keys props.
Proof.
  unfold other_keys. induction props as [|[k' v'] rest IH]; simpl.
  - rewrite filter_cons_False; [done | simpl; tauto].
  - destruct (String.eqb_spec k' Sites.wordpress_sites) as [->|Hk].
    + rewrite !filter_cons_False; simpl; tauto.
    + rewrite !filter_cons_True by done. by rewrite IH.
Qed.

Lemma collection_assign items props :
  collection (assign Sites.wordpress_sites (JArr items) props) = Some items.
Proof. unfold collection. by rewrite own_prop_assign_eq. Qed.

(** ** Facts about the callbacks of [sites/route.ts] *)

Lemma same_url_spec site0 s :
  not_null site0 = true → not_null s = true →
  Sites.same_url site0 s = Normal (url_matches (url_of site0) s).
Proof.
  intros H1 H2. unfold Sites.same_url.
  rewrite (get_url s H2). simpl. by rewrite (get_url site0 H1).
Qed.

Lemma findIndex_from_spec site0 items i :
  not_null site0 = true → forallb not_null items = true →
  Sites.findIndex_from i site0 items =
    Normal ((λ p, i + p.1) <$> list_find (λ s, url_matches (url_of site0) s) items).
Proof.
  intros Hs. revert i. induction items as [|s rest IH]; intros i Hall; [done|].
  simpl in Hall. apply andb_prop in Hall as [Hn Hrest].
  cbn [Sites.findIndex_from list_find]. rewrite (same_url_spec _ _ Hs Hn). simpl.
  destruct (url_matches (url_of site0) s) eqn:E.
  - rewrite decide_True by done. simpl. do 2 f_equal. lia.
  - rewrite decide_False by (by intros []).
    rewrite (IH (S i) Hrest). f_equal.
    destruct (list_find _ rest) as [[j y]|]; simpl; [f_equal; lia | done].
Qed.

Lemma findIndex_spec site0 items :
  not_null site0 = true → forallb not_null items = true →
  Sites.findIndex site0 items =
    Normal (fst <$> list_find (λ s, url_matches (url_of site0) s) items).
Proof.
  intros Hs Hall. unfold Sites.findIndex. rewrite findIndex_from_spec by done.
  by destruct (list_find _ items) as [[j y]|].
Qed.

Lemma filter_out_spec url items :
  forallb not_null items = true →
  Sites.filter_out url items = Normal (filter (λ s, ¬ url_matches url s) items).
Proof.
  induction items as [|s rest IH]; intros Hall; [done|].
  simpl in Hall. apply andb_prop in Hall as [Hn Hrest].
  cbn [Sites.filter_out]. rewrite (get_url s Hn). simpl. rewrite (IH Hrest). simpl.
  unfold mret, completion_ret. f_equal. fold (url_matches url s).
  destruct (url_matches url s) eqn:E; simpl.
  - rewrite filter_cons_False; [done | rewrite E; simpl; tauto].
  - rewrite filter_cons_True; [done | rewrite E; simpl; tauto].
Qed.

Lemma length_filter_insert {A} (P : A → Prop) `{∀ x, Decision (P x)}
    (l : list A) (i : nat) (x y : A) :
  l !! i = Some x → P x → P y →
  length (filter P (<[i := y]> l)) = length (filter P l).
Proof.
  revert i. induction l as [|a l IH]; intros i Hi Hx Hy; [done|].
  destruct i as [|i]; simpl in Hi.
  - injection Hi as ->. simpl. by rewrite !filter_cons_True.
  - simpl. destruct (decide (P a)).
    + rewrite !filter_cons_True by done. simpl. f_equal. by apply IH.
    + rewrite !filter_cons_False by done. by apply IH.
Qed.

Lemma length_filter_none {A} (P : A → Prop) `{∀ x, Decision (P x)} (l : list A) :
  Forall (λ x, ¬ P x) l → length (filter P l) = 0.
Proof.
  induction 1 as [|a l Ha _ IH]; [done|]. by rewrite filter_cons_False.
Qed.

Lemma length_filter_some {A} (P : A → Prop) `{∀ x, Decision (P x)}
    (l : list A) (i : nat) (x : A) :
  l !! i = Some x → P x → 1 ≤ length (filter P l).
Proof.
  intros Hi Hx.
  assert (x ∈ filter P l) as Hin.
  { apply list_elem_of_filter. split; [done|]. by eapply list_elem_of_lookup_2. }
  destruct (filter P l); [by apply elem_of_nil in Hin | simpl; lia].
Qed.

Lemma collection_cases props items :
  collection props = Some items →
  own_prop Sites.wordpress_sites props = Some (JArr items)
  ∨ (truthy (own_prop Sites.wordpress_sites props) = false ∧ items = []).
Proof.
  unfold collection.
  destruct (own_prop Sites.wordpress_sites props) as [w|]; [|intros [= <-]; by right].
  destruct w; simpl; try case_match; intros ?; simplify_eq; auto.
Qed.

(** The path of [POST] through lines 21-23, where the collection is created. *)
Ltac fresh_collection :=
  simpl; rewrite own_prop_assign_eq; simpl; rewrite assign_assign; reflexivity.

(** ** The registry on a usable store *)
Section Registry.

(** The file parses to an object, can be written, and holds a collection
    none of whose elements is [null]. *)
Variable d : disk.
Variable props : list (string * json).
Variable items : list json.
Hypothesis file_parses : config_file d = Document (JObj props).
Hypothesis file_writable : writable d = true.
Hypothesis holds_items : collection props = Some items.
Hypothesis no_null : forallb not_null items = true.


Lemma POST_outcome (site0 : json) :
  not_null site0 = true →
  Sites.POST (Some site0) d =
    (json_response Sites.success_body,
     Disk (Document (JObj (assign Sites.wordpress_sites
       (JArr (Sites.put (fst <$> list_find (λ s, url_matches (url_of site0) s) items)
                        site0 items)) props))) true).
Proof using file_parses file_writable holds_items no_null.
  intros Hs. unfold Sites.POST, read_config, write_config.
  rewrite file_parses, file_writable. simpl.
  destruct (collection_cases _ _ holds_items) as [Harr | [Hfalsy Hnil]].
  - rewrite Harr. simpl. rewrite Harr. simpl.
    rewrite (findIndex_spec _ _ Hs no_null). reflexivity.
  - rewrite Hfalsy, Hnil. fresh_collection.
Qed.

Lemma DELETE_outcome (data : json) (url : value) :
  get data "url" = Normal url →
  Sites.DELETE (Some data) d =
    (json_response Sites.success_body,
     if truthy (own_prop Sites.wordpress_sites props)
     then Disk (Document (JObj (assign Sites.wordpress_sites
            (JArr (filter (λ s, ¬ url_matches url s) items)) props))) true
     else d).
Proof using file_parses file_writable holds_items no_null.
  intros Hu. unfold Sites.DELETE, read_config, write_config.
  rewrite file_parses, file_writable. simpl. rewrite Hu. simpl.
  destruct (collection_cases _ _ holds_items) as [Harr | [Hfalsy Hnil]].
  - rewrite Harr. simpl. rewrite (filter_out_spec _ _ no_null). reflexivity.
  - by rewrite Hfalsy.
Qed.

Lemma filter_all {A} (P : A → Prop) `{∀ x, Decision (P x)} (l : list A) :
  Forall P l → filter P l = l.
Proof.
  induction 1 as [|a l Ha _ IH]; [done|]. rewrite filter_cons_True by done. by rewrite IH.
Qed.

(** C1 (as amended): on a usable store, an upsert of a record whose url is
    the string [u] succeeds and writes back the document with its collection
    changed as follows: the first stored record with url [u], if there is
    one, is replaced at its position and the length stays; if there is none,
    the record is appended at the end.  The number of records with url [u]
    afterwards is the number before, or one if there was none. *)
Theorem upsert_replaces_first_or_appends (site0 : json) (u : string) :
  url_of site0 = Some (JStr u) →
  ∃ items',
    Sites.POST (Some site0) d =
      (json_response Sites.success_body,
       Disk (Document (JObj (assign Sites.wordpress_sites (JArr items') props))) true)
    ∧ (∀ i s, items !! i = Some s → url_matches (Some (JStr u)) s →
         (∀ j s', j < i → items !! j = Some s' → ¬ url_matches (Some (JStr u)) s') →
         items' = <[i := site0]> items ∧ length items' = length items)
    ∧ (Forall (λ s, ¬ url_matches (Some (JStr u)) s) items → items' = items ++ [site0])
    ∧ length (filter (λ s, url_matches (Some (JStr u)) s) items')
      = max 1 (length (filter (λ s, url_matches (Some (JStr u)) s) items)).
Proof using file_parses file_writable holds_items no_null.
  intros Hu.
  assert (not_null site0 = true) as Hs by (by destruct site0).
  assert (url_matches (Some (JStr u)) site0) as Hself.
  { unfold url_matches. rewrite Hu. simpl. by rewrite String.eqb_refl. }
  eexists. split; [by apply POST_outcome|]. rewrite Hu.
  destruct (list_find _ items) as [[i s]|] eqn:Ef; simpl.
  - apply list_find_Some in Ef as (Hi & HP & Hleast). split_and!.
    + intros i' s' Hi' HP' Hleast'.
      assert (i' = i) as ->.
      { destruct (Nat.lt_trichotomy i' i) as [Hlt | [-> | Hlt]]; [|done|].
        - by destruct (Hleast i' s' Hi' Hlt).
        - by destruct (Hleast' i s Hlt Hi). }
      split; [done | apply length_insert].
    + intros Hall. by destruct (Forall_lookup_1 _ _ _ _ Hall Hi).
    + rewrite (length_filter_insert _ items i s site0 Hi HP Hself).
      pose proof (length_filter_some (λ s, url_matches (Some (JStr u)) s) items i s Hi HP). lia.
  - apply list_find_None in Ef. split_and!.
    + intros i s Hi HP. by destruct (Forall_lookup_1 _ _ _ _ Ef Hi).
    + done.
    + rewrite filter_app, length_app, (length_filter_none _ items Ef).
      by rewrite filter_cons_True.
Qed.


End Registry.


(** ** Closed instances for the registry *)

(** Instance of [upsert_replaces_first_or_appends]: in the sample store
    [ann]'s record is replaced where it stands, and stays the only one with
    its url. *)
Lemma upsert_replaces_first_or_appends_witness :
  ∃ items',
    Sites.POST (Some ann_again) sample_disk =
      (json_response Sites.success_body,
       Disk (Document (JObj (assign Sites.wordpress_sites (JArr items') sample_props))) true)
    ∧ items' = [ann_again; bob]
    ∧ length (filter (λ s, url_matches (Some (JStr "https://a.example")) s) items') = 1.
Proof.
  destruct (upsert_replaces_first_or_appends sample_disk sample_props [ann; bob]
              eq_refl eq_refl eq_refl eq_refl ann_again "https://a.example" eq_refl)
    as (items' & Hpost & Hreplace & _ & Hcount).
  exists items'. split; [exact Hpost|]. split.
  - apply (Hreplace 0 ann eq_refl I). intros j s' Hj. lia.
  - rewrite Hcount. vm_compute. reflexivity.
Defined.

(** C1 as stated fails: a store that already holds two records with one url
    still holds two after an upsert of that url. *)
Lemma upsert_keeps_stored_duplicates :
  let d0 := Disk (Document (JObj [("wordpress_sites", JArr [ann; bob; ann])])) true in
  ∃ d1 items',
    Sites.POST (Some ann_again) d0 = (json_response Sites.success_body, d1)
    ∧ stored d1 = Some items'
    ∧ ¬ length (filter (λ s, url_matches (Some (JStr "https://a.example")) s) items') ≤ 1.
Proof.
  eexists _, _. split; [reflexivity|]. split; [reflexivity|].
  vm_compute. lia.
Qed.


(** The same handler on a url that is stored. *)
Example delete_bob :
  Sites.DELETE (Some (JObj [("url", JStr "https://b.example")])) sample_disk
  = (json_response Sites.success_body,
     Disk (Document (JObj [("theme", JStr "dark"); ("wordpress_sites", JArr [ann])])) true).
Proof. reflexivity. Qed.

(** ** Listing *)

Lemma GET_stored d props items :
  config_file d = Document (JObj props) →
  own_prop Sites.wordpress_sites props = Some (JArr items) →
  Sites.GET d = json_response (JArr items).
Proof.
  intros Hf Hp. unfold Sites.GET, read_config. rewrite Hf. simpl. by rewrite Hp.
Qed.



(** ** The frame of the two writing handlers *)


Lemma frame_assign props v w :
  frame (Document (JObj props))
        (Document (JObj (assign Sites.wordpress_sites v
                           (assign Sites.wordpress_sites w props)))).
Proof. simpl. by rewrite !other_keys_assign. Qed.


(** ** Two upserts in a row *)

Lemma forallb_not_null_put idx x items :
  forallb not_null items = true → not_null x = true →
  forallb not_null (Sites.put idx x items) = true.
Proof.
  intros Hall Hx. destruct idx as [i|]; simpl.
  - revert i. induction items as [|s rest IH]; intros i; [done|].
    simpl in Hall. apply andb_prop in Hall as [Hs Hrest].
    destruct i; simpl; [by rewrite Hx | by rewrite Hs, IH].
  - by rewrite forallb_app, Hall; simpl; rewrite Hx.
Qed.

Lemma put_lookup (P : json → Prop) `{∀ s, Decision (P s)} x items :
  ∃ i, Sites.put (fst <$> list_find P items) x items !! i = Some x
       ∧ (list_find P items = None → i = length items).
Proof.
  destruct (list_find P items) as [[i s]|] eqn:Ef; simpl.
  - apply list_find_Some in Ef as (Hi & _ & _). exists i. split; [|done].
    apply list_lookup_insert_eq. by eapply lookup_lt_Some.
  - exists (length items). split; [|done]. by apply list_lookup_middle.
Qed.

Lemma put_keeps_other (P : json → Prop) `{∀ s, Decision (P s)} x y items i :
  items !! i = Some y → ¬ P y →
  Sites.put (fst <$> list_find P items) x items !! i = Some y.
Proof.
  intros Hi Hy. destruct (list_find P items) as [[j s]|] eqn:Ef; simpl.
  - apply list_find_Some in Ef as (Hj & Hs & _).
    rewrite list_lookup_insert_ne; [done|]. intros ->. congruence.
  - rewrite lookup_app_l; [done|]. by eapply lookup_lt_Some.
Qed.

Lemma put_Forall (Q : json → Prop) idx x items :
  Forall Q items → Q x → Forall Q (Sites.put idx x items).
Proof.
  intros Hall Hx. destruct idx as [i|]; simpl.
  - by apply Forall_insert.
  - apply Forall_app. split; [done | by constructor].
Qed.

Lemma url_matches_other a ua ub :
  url_of a = Some (JStr ua) → ua ≠ ub → ¬ url_matches (Some (JStr ub)) a.
Proof.
  intros Ha Hne. unfold url_matches. rewrite Ha. simpl.
  destruct (String.eqb_spec ua ub); [done | simpl; tauto].
Qed.

(** C7 (as amended): when the file parses to an object, can be written,
    and holds a collection (absent, falsy or an array) without [null]
    element, upserting [a] and then [b], two records with distinct string
    urls, succeeds twice, and the list then answers an array that contains
    both; [a] sits before [b] in it whenever the store held no record with
    [b]'s url beforehand. *)
Theorem upsert_two_then_list d props items (a b : json) (ua ub : string) :
  config_file d = Document (JObj props) →
  writable d = true →
  collection props = Some items →
  forallb not_null items = true →
  url_of a = Some (JStr ua) →
  url_of b = Some (JStr ub) →
  ua ≠ ub →
  ∃ d1 d2 l,
    Sites.POST (Some a) d = (json_response Sites.success_body, d1)
    ∧ Sites.POST (Some b) d1 = (json_response Sites.success_body, d2)
    ∧ Sites.GET d2 = json_response (JArr l)
    ∧ a ∈ l ∧ b ∈ l
    ∧ (Forall (λ s, ¬ url_matches (Some (JStr ub)) s) items → before_in a b l).
Proof.
  intros Hf Hw Hc Hnn Ha Hb Hne.
  assert (not_null a = true) as Hna by (by destruct a).
  assert (not_null b = true) as Hnb by (by destruct b).
  pose proof (url_matches_other a ua ub Ha Hne) as Hab.
  set (items1 := Sites.put (fst <$> list_find (λ s, url_matches (url_of a) s) items) a items).
  set (props1 := assign Sites.wordpress_sites (JArr items1) props).
  set (items2 := Sites.put (fst <$> list_find (λ s, url_matches (url_of b) s) items1) b items1).
  exists (Disk (Document (JObj props1)) true),
         (Disk (Document (JObj (assign Sites.wordpress_sites (JArr items2) props1))) true),
         items2.
  assert (forallb not_null items1 = true) as Hnn1 by (by apply forallb_not_null_put).
  destruct (put_lookup (λ s, url_matches (url_of a) s) a items) as (i & Hi & _).
  fold items1 in Hi.
  assert (items2 !! i = Some a) as Hi2.
  { apply put_keeps_other; [done|]. by rewrite Hb. }
  destruct (put_lookup (λ s, url_matches (url_of b) s) b items1) as (j & Hj & Hlast).
  fold items2 in Hj.
  split_and!.
  - by apply POST_outcome.
  - apply (POST_outcome _ props1 items1); try done. apply collection_assign.
  - eapply GET_stored; [done|]. simpl. apply own_prop_assign_eq.
  - by eapply list_elem_of_lookup_2.
  - by eapply list_elem_of_lookup_2.
  - intros Hfresh. exists i, j. split_and!; [|done|done].
    rewrite Hlast; [by eapply lookup_lt_Some|].
    apply list_find_None. rewrite Hb. by apply put_Forall.
Qed.

(** Instance of [upsert_two_then_list]: [ann]'s record is rotated and
    [bob] is new to the store. *)
Lemma upsert_two_then_list_witness :
  let d := Disk (Document (JObj [("wordpress_sites", JArr [ann])])) true in
  ∃ d1 d2 l,
    Sites.POST (Some ann_again) d = (json_response Sites.success_body, d1)
    ∧ Sites.POST (Some bob) d1 = (json_response Sites.success_body, d2)
    ∧ Sites.GET d2 = json_response (JArr l)
    ∧ ann_again ∈ l ∧ bob ∈ l
    ∧ before_in ann_again bob l.
Proof.
  destruct (upsert_two_then_list
              (Disk (Document (JObj [("wordpress_sites", JArr [ann])])) true)
              [("wordpress_sites", JArr [ann])] [ann] ann_again bob
              "https://a.example" "https://b.example"
              eq_refl eq_refl eq_refl eq_refl eq_refl eq_refl)
    as (d1 & d2 & l & H1 & H2 & H3 & H4 & H5 & H6); [discriminate|].
  exists d1, d2, l. split_and!; try assumption.
  apply H6. repeat constructor; simpl; tauto.
Defined.

(** C7 as stated fails: when the store already holds a record with the
    second url, that record is replaced where it stands, ahead of the first
    one, which is appended. *)
Lemma upsert_second_keeps_its_place :
  let d0 := Disk (Document (JObj [("wordpress_sites", JArr [bob])])) true in
  let d1 := (Sites.POST (Some ann) d0).2 in
  let d2 := (Sites.POST (Some bob_again) d1).2 in
  Sites.GET d2 = json_response (JArr [bob_again; ann])
  ∧ ¬ before_in ann bob_again [bob_again; ann].
Proof.
  split; [reflexivity|].
  intros (i & j & Hlt & Hi & Hj).
  destruct i as [|[|i]]; destruct j as [|[|j]]; simpl in Hi, Hj;
    try lia; discriminate.
Qed.

(** ** The connectivity check *)

Lemma axios_get_failed o :
  failed o = true → TestConnection.axios_get o = Throws AxiosError.
Proof.
  destruct o as [code hs d| |]; [|done..].
  unfold failed, TestConnection.axios_get.
  by destruct ((200 <=? code) && (code <? 300)).
Qed.

Lemma axios_get_2xx code hs d :
  200 ≤ code < 300 →
  TestConnection.axios_get (TestConnection.Responded code hs d)
  = Normal (TestConnection.AxiosResponse hs d).
Proof.
  intros [Hlo Hhi]. unfold TestConnection.axios_get.
  apply Nat.leb_le in Hlo. apply Nat.ltb_lt in Hhi. by rewrite Hlo, Hhi.
Qed.

Lemma POST_probe_success site0 net url username password code hs posts :
  get site0 "url" = Normal url →
  get site0 "username" = Normal username →
  get site0 "password" = Normal password →
  net url username password = TestConnection.Responded code hs (JArr posts) →
  200 ≤ code < 300 →
  TestConnection.POST (Some site0) net =
    json_response (literal [("connected", Some (JBool true));
                            ("version", TestConnection.header "x-wp-total" hs);
                            ("last_post", Some (first_date posts))]).
Proof.
  intros Hu Hn Hp Hnet Hcode. unfold TestConnection.POST. simpl.
  rewrite Hu. simpl. rewrite Hn. simpl. rewrite Hp. simpl.
  rewrite Hnet, (axios_get_2xx _ _ _ Hcode). simpl.
  by destruct posts.
Qed.

(** C2 (as amended): the handler turns every outcome into a response.  It
    answers either 200 with [connected: true] or 500 with the one body
    [{connected: false, error: "Failed to connect to WordPress site"}]; a
    request that meets no route, no answer in time, or a status outside
    [200, 300) gets that body, which has no [failureReason]. *)
Theorem probe_flattens_every_failure (payload : option json) (net : TestConnection.internet) :
  (TestConnection.POST payload net = json_response_status TestConnection.failure_body 500
   ∨ (status (TestConnection.POST payload net) = 200
      ∧ get (body (TestConnection.POST payload net)) "connected"
        = Normal (Some (JBool true))))
  ∧ (∀ site0 url username password,
       payload = Some site0 →
       get site0 "url" = Normal url →
       get site0 "username" = Normal username →
       get site0 "password" = Normal password →
       failed (net url username password) = true →
       TestConnection.POST payload net
       = json_response_status TestConnection.failure_body 500)
  ∧ get TestConnection.failure_body "connected" = Normal (Some (JBool false))
  ∧ get TestConnection.failure_body "failureReason" = Normal None.
Proof.
  split_and!; [| |reflexivity..].
  - unfold TestConnection.POST. destruct payload as [site0|]; simpl; [|by left].
    destruct (get site0 "url") as [url|]; simpl; [|by left].
    destruct (get site0 "username") as [username|]; simpl; [|by left].
    destruct (get site0 "password") as [password|]; simpl; [|by left].
    destruct (TestConnection.axios_get _) as [response|]; simpl; [|by left].
    destruct (TestConnection.index0 _) as [first|]; simpl; [|by left].
    by right.
  - intros site0 url username password -> Hu Hn Hp Hfail.
    unfold TestConnection.POST. simpl.
    rewrite Hu. simpl. rewrite Hn. simpl. rewrite Hp. simpl.
    by rewrite (axios_get_failed _ Hfail).
Qed.

(** C2 as stated fails: for a host that cannot be reached the response
    carries [connected: false] and no [failureReason], where the claim has
    ["network"] (and likewise ["timeout"] for a request that is not
    answered in time). *)
Lemma probe_failure_has_no_reason :
  let r := TestConnection.POST (Some ann) unreachable_host in
  let r' := TestConnection.POST (Some ann) (λ _ _ _, TestConnection.NoAnswer) in
  spec_failureReason TestConnection.NoRoute = Some "network"
  ∧ spec_failureReason TestConnection.NoAnswer = Some "timeout"
  ∧ get (body r) "connected" = Normal (Some (JBool false))
  ∧ get (body r) "failureReason" = Normal None
  ∧ get (body r) "failureReason"
    ≠ Normal (JStr <$> spec_failureReason TestConnection.NoRoute)
  ∧ get (body r') "failureReason"
    ≠ Normal (JStr <$> spec_failureReason TestConnection.NoAnswer).
Proof. split_and!; (reflexivity || discriminate). Qed.

(** C6 (as amended): when the WordPress site answers with a status in
    [200, 300) and an array of posts, the handler answers 200 with a body
    of the properties [connected], [version] and [last_post]:
    [connected] is [true]; [version] is the [x-wp-total] header and is
    absent exactly when the header is; [last_post] is [null] for an empty
    listing and the [date] of the listing's first post when that post is an
    object with a truthy [date].  The body has no [postCount] and no
    [lastPostDate]. *)
Theorem probe_success_body site0 net url username password code hs posts :
  get site0 "url" = Normal url →
  get site0 "username" = Normal username →
  get site0 "password" = Normal password →
  net url username password = TestConnection.Responded code hs (JArr posts) →
  200 ≤ code < 300 →
  let r := TestConnection.POST (Some site0) net in
  status r = 200
  ∧ get (body r) "connected" = Normal (Some (JBool true))
  ∧ get (body r) "version" = Normal (TestConnection.header "x-wp-total" hs)
  ∧ (posts = [] → get (body r) "last_post" = Normal (Some JNull))
  ∧ (∀ fields rest date,
       posts = JObj fields :: rest →
       own_prop "date" fields = Some date →
       truthy (Some date) = true →
       get (body r) "last_post" = Normal (Some date))
  ∧ get (body r) "postCount" = Normal None
  ∧ get (body r) "lastPostDate" = Normal None.
Proof.
  intros Hu Hn Hp Hnet Hcode r. subst r.
  rewrite (POST_probe_success _ _ _ _ _ _ _ _ Hu Hn Hp Hnet Hcode).
  destruct (TestConnection.header "x-wp-total" hs) as [v|]; simpl;
    (split_and!; try reflexivity;
     [ by intros ->
     | intros fields rest date -> Hd Ht; simpl; rewrite Hd; simpl;
       simpl in Ht; by rewrite Ht ]).
Qed.

(** Instance of [probe_success_body]: the site with two posts. *)
Lemma probe_success_body_witness :
  let r := TestConnection.POST (Some ann) two_posts in
  let posts := [JObj [("id", JNum 7); ("date", JStr "2024-05-01T10:00:00")];
                JObj [("id", JNum 3); ("date", JStr "2024-04-01T10:00:00")]] in
  status r = 200
  ∧ get (body r) "connected" = Normal (Some (JBool true))
  ∧ get (body r) "version" = Normal (TestConnection.header "x-wp-total" [("x-wp-total", "2")])
  ∧ (posts = [] → get (body r) "last_post" = Normal (Some JNull))
  ∧ (∀ fields rest date,
       posts = JObj fields :: rest →
       own_prop "date" fields = Some date →
       truthy (Some date) = true →
       get (body r) "last_post" = Normal (Some date))
  ∧ get (body r) "postCount" = Normal None
  ∧ get (body r) "lastPostDate" = Normal None.
Proof.
  apply (probe_success_body ann two_posts (Some (JStr "https://a.example"))
           (Some (JStr "ann")) (Some (JStr "x")) 200);
    [reflexivity .. | lia].
Defined.

(** C6 as stated fails: the body of a successful check names the count
    [version] and the date [last_post]; it has no [postCount] and no
    [lastPostDate]. *)
Lemma probe_success_has_other_names :
  let r := TestConnection.POST (Some ann) two_posts in
  r = json_response (JObj [("connected", JBool true); ("version", JStr "2");
                           ("last_post", JStr "2024-05-01T10:00:00")])
  ∧ get (body r) "postCount" ≠ Normal (Some (JStr "2"))
  ∧ get (body r) "lastPostDate" ≠ Normal (Some (JStr "2024-05-01T10:00:00")).
Proof. split_and!; (reflexivity || discriminate). Qed.

(** ** The component's add and remove flows *)

Lemma empty_spec s : Manager.empty s = true ↔ s = "".
Proof. unfold Manager.empty. by destruct (String.eqb_spec s ""). Qed.

Lemma testConnection_outcome site0 b :
  ∃ isConnected payload,
    Manager.testConnection site0 b
    = (isConnected, b, [Manager.Fetch "/api/wordpress/test-connection" "POST" payload]).
Proof.
  unfold Manager.testConnection, Manager.fetch_json.
  destruct (Manager.reachable b); [|by eexists _, _].
  cbn [Manager.serve String.eqb Ascii.eqb Bool.eqb].
  destruct (get _ "connected"); by eexists _, _.
Qed.

Lemma addSite_complete st b :
  Manager.url (Manager.newSite st) ≠ "" →
  Manager.username (Manager.newSite st) ≠ "" →
  Manager.password (Manager.newSite st) ≠ "" →
  ∃ isConnected payload,
    Manager.addSite st b
    = (Manager.State
         (Manager.sites st ++ [Manager.merged (Manager.newSite st) isConnected])
         false Manager.blank,
       b,
       [Manager.Fetch "/api/wordpress/test-connection" "POST" payload;
        Manager.ToastSuccess "WordPress site added successfully"]).
Proof.
  intros Hu Hn Hp. unfold Manager.addSite.
  destruct (Manager.empty (Manager.url _)) eqn:Eu; [by apply empty_spec in Eu|].
  destruct (Manager.empty (Manager.username _)) eqn:En; [by apply empty_spec in En|].
  destruct (Manager.empty (Manager.password _)) eqn:Ep; [by apply empty_spec in Ep|].
  simpl. destruct (testConnection_outcome (Manager.newSite st) b) as (v & p & ->).
  by exists v, p.
Qed.

(** C8: when the url, the username or the password of the candidate is
    empty, [addSite] only raises the validation toast; it issues no call,
    and leaves the component's state and the server side as they were. *)
Theorem addSite_rejects_incomplete (st : Manager.state) (b : Manager.backend) :
  Manager.url (Manager.newSite st) = ""
  ∨ Manager.username (Manager.newSite st) = ""
  ∨ Manager.password (Manager.newSite st) = "" →
  Manager.addSite st b
  = (st, b, [Manager.ToastError "Please fill in all required fields"])
  ∧ calls (Manager.addSite st b).2 = [].
Proof.
  intros H. unfold Manager.addSite.
  assert (Manager.empty (Manager.url (Manager.newSite st))
          || Manager.empty (Manager.username (Manager.newSite st))
          || Manager.empty (Manager.password (Manager.newSite st)) = true) as ->.
  { destruct H as [H | [H | H]]; apply empty_spec in H; rewrite H;
      by rewrite ?orb_true_r. }
  done.
Qed.

(** Instance of [addSite_rejects_incomplete]: the blank form. *)
Lemma addSite_rejects_incomplete_witness :
  Manager.addSite (Manager.State [ann] false Manager.blank) sample_backend
  = (Manager.State [ann] false Manager.blank, sample_backend,
     [Manager.ToastError "Please fill in all required fields"])
  ∧ calls (Manager.addSite (Manager.State [ann] false Manager.blank) sample_backend).2 = [].
Proof.
  apply (addSite_rejects_incomplete (Manager.State [ann] false Manager.blank)
           sample_backend).
  left. reflexivity.
Defined.

(** C9: [addSite] and [removeSite] leave the server side, and with it the
    file, as they found it; [addSite] calls no registry route and
    [removeSite] calls nothing at all; a session started afterwards loads
    what it would have loaded before. *)
Theorem add_and_remove_stay_local
    (st : Manager.state) (b : Manager.backend) (target : string) :
  (Manager.addSite st b).1.2 = b
  ∧ registry_calls (Manager.addSite st b).2 = []
  ∧ (Manager.removeSite target st b).1.2 = b
  ∧ calls (Manager.removeSite target st b).2 = []
  ∧ Manager.files (Manager.addSite st b).1.2 = Manager.files b
  ∧ Manager.files (Manager.removeSite target st b).1.2 = Manager.files b
  ∧ (Manager.loadSites (Manager.addSite st b).1.2).1.1 = (Manager.loadSites b).1.1
  ∧ (Manager.loadSites (Manager.removeSite target st b).1.2).1.1
    = (Manager.loadSites b).1.1.
Proof.
  assert ((Manager.addSite st b).1.2 = b ∧ registry_calls (Manager.addSite st b).2 = [])
    as [Hadd Hcalls].
  { unfold Manager.addSite.
    destruct (_ || _ || _); [done|].
    destruct (testConnection_outcome (Manager.newSite st) b) as (v & p & ->). done. }
  assert ((Manager.removeSite target st b).1.2 = b
          ∧ calls (Manager.removeSite target st b).2 = []) as [Hrem Hnone].
  { unfold Manager.removeSite. by destruct (Sites.filter_out _ _). }
  rewrite Hadd, Hrem. done.
Qed.

(** C10: an [addSite] that passes validation puts the merged candidate at
    the end of [sites], whatever [sites] holds: the record carries the
    candidate's url, the number of records with that url grows by one, and
    it is at least two when [sites] already held such a record. *)
Theorem addSite_appends_without_upsert (st : Manager.state) (b : Manager.backend) :
  Manager.url (Manager.newSite st) ≠ "" →
  Manager.username (Manager.newSite st) ≠ "" →
  Manager.password (Manager.newSite st) ≠ "" →
  let u := Manager.url (Manager.newSite st) in
  let st' := (Manager.addSite st b).1.1 in
  ∃ isConnected,
    Manager.sites st' = Manager.sites st ++ [Manager.merged (Manager.newSite st) isConnected]
    ∧ url_of (Manager.merged (Manager.newSite st) isConnected) = Some (JStr u)
    ∧ length (filter (λ s, url_matches (Some (JStr u)) s) (Manager.sites st'))
      = S (length (filter (λ s, url_matches (Some (JStr u)) s) (Manager.sites st)))
    ∧ ((∃ i s, Manager.sites st !! i = Some s ∧ url_matches (Some (JStr u)) s) →
       2 ≤ length (filter (λ s, url_matches (Some (JStr u)) s) (Manager.sites st'))).
Proof.
  intros Hu Hn Hp u st'.
  destruct (addSite_complete st b Hu Hn Hp) as (v & p & Hadd).
  exists v. subst st'. rewrite Hadd. simpl.
  assert (url_of (Manager.merged (Manager.newSite st) v) = Some (JStr u)) as Hurl.
  { unfold Manager.merged, Manager.fields, literal. simpl. reflexivity. }
  assert (length (filter (λ s, url_matches (Some (JStr u)) s)
                    (Manager.sites st ++ [Manager.merged (Manager.newSite st) v]))
          = S (length (filter (λ s, url_matches (Some (JStr u)) s) (Manager.sites st))))
    as Hcount.
  { rewrite filter_app, length_app, filter_cons_True.
    - simpl. lia.
    - unfold url_matches. rewrite Hurl. simpl. by rewrite String.eqb_refl. }
  split_and!; [done..|].
  intros (i & s & Hi & Hs). rewrite Hcount.
  pose proof (length_filter_some (λ s, url_matches (Some (JStr u)) s) _ i s Hi Hs). lia.
Qed.

(** Instance of [addSite_appends_without_upsert]: the candidate's url is
    already listed, and is listed twice afterwards. *)
Lemma addSite_appends_without_upsert_witness :
  let st := Manager.State [ann; bob] false candidate in
  let st' := (Manager.addSite st sample_backend).1.1 in
  ∃ isConnected,
    Manager.sites st' = [ann; bob; Manager.merged candidate isConnected]
    ∧ 2 ≤ length (filter (λ s, url_matches (Some (JStr "https://a.example")) s)
                         (Manager.sites st')).
Proof.
  destruct (addSite_appends_without_upsert
              (Manager.State [ann; bob] false candidate) sample_backend)
    as (v & Hsites & _ & _ & Htwice); [discriminate..|].
  exists v. split; [exact Hsites|].
  apply Htwice. exists 0, ann. split; [reflexivity | exact I].
Defined.

(** The same instance, computed: two records share the url afterwards. *)
Example addSite_lists_the_url_twice :
  Manager.sites (Manager.addSite (Manager.State [ann; bob] false candidate) sample_backend).1.1
  = [ann; bob;
     JObj [("url", JStr "https://a.example"); ("username", JStr "ann");
           ("password", JStr "x"); ("category", JStr "technology");
           ("post_interval", JStr "6"); ("max_posts_per_day", JStr "4");
           ("is_connected", JBool true)]].
Proof. reflexivity. Qed.


(** * Further properties of the three files *)

(** ** The registry: composition and invariants *)

Lemma stored_inv d items :
  stored d = Some items →
  ∃ props, config_file d = Document (JObj props) ∧ collection props = Some items.
Proof.
  unfold stored. destruct (config_file d) as [| |[]]; try discriminate. eauto.
Qed.

Lemma GET_usable d items : stored d = Some items → Sites.GET d = json_response (JArr items).
Proof.
  intros (props & Hf & Hc)%stored_inv.
  unfold Sites.GET, read_config, or_else. rewrite Hf. simpl.
  destruct (collection_cases _ _ Hc) as [-> | [Hfalsy ->]]; [done|].
  rewrite Hfalsy. by destruct (own_prop _ props).
Qed.

Lemma stored_written items props w :
  stored (Disk (Document (JObj (assign Sites.wordpress_sites (JArr items) props))) w)
  = Some items.
Proof. unfold stored. simpl. apply collection_assign. Qed.

Lemma url_matches_string u s :
  url_matches (Some (JStr u)) s ↔ url_of s = Some (JStr u).
Proof.
  unfold url_matches, strict_eq.
  destruct (url_of s) as [[| | |u'| |]|]; simpl; try (split; [tauto | discriminate]).
  destruct (String.eqb_spec u' u) as [->|Hne]; simpl; split; try tauto; congruence.
Qed.

Lemma url_matches_self site0 u : url_of site0 = Some (JStr u) → url_matches (url_of site0) site0.
Proof. intros Hu. rewrite Hu. by apply url_matches_string. Qed.

(** After [put], the first element that matches is the record put. *)
Lemma find_after_put (P : json → Prop) `{∀ s, Decision (P s)} x items :
  P x →
  ∃ k, list_find P (Sites.put (fst <$> list_find P items) x items) = Some (k, x).
Proof.
  intros Hx. destruct (list_find P items) as [[i s]|] eqn:Ef; simpl.
  - apply list_find_Some in Ef as (Hi & Hs & Hleast). exists i.
    apply list_find_Some. split_and!; [|done|].
    + apply list_lookup_insert_eq. by eapply lookup_lt_Some.
    + intros j y Hj Hlt. rewrite list_lookup_insert_ne in Hj by lia. eauto.
  - exists (length items). rewrite list_find_app_r by done. simpl.
    rewrite decide_True by done. simpl. do 2 f_equal.
Qed.

Lemma put_again (P : json → Prop) `{∀ s, Decision (P s)} x items :
  P x →
  let items1 := Sites.put (fst <$> list_find P items) x items in
  Sites.put (fst <$> list_find P items1) x items1 = items1.
Proof.
  intros Hx items1. destruct (find_after_put P x items Hx) as (k & Hk).
  fold items1 in Hk. rewrite Hk. simpl.
  apply list_find_Some in Hk as (Hk & _). by apply list_insert_id.
Qed.

(** X1: on a usable store, sending the same record with a string url a
    second time succeeds and leaves the file exactly as the first upsert
    wrote it. *)
Theorem upsert_twice_is_upsert_once d items site0 u :
  usable d items →
  url_of site0 = Some (JStr u) →
  ∃ d1,
    Sites.POST (Some site0) d = (json_response Sites.success_body, d1)
    ∧ Sites.POST (Some site0) d1 = (json_response Sites.success_body, d1).
Proof.
  intros (Hst & Hw & Hnn) Hu.
  destruct (stored_inv _ _ Hst) as (props & Hf & Hc).
  assert (not_null site0 = true) as Hs by (by destruct site0).
  pose proof (url_matches_self _ _ Hu) as Hself.
  eexists. split; [by apply (POST_outcome d props items)|].
  set (items1 := Sites.put _ site0 items).
  rewrite (POST_outcome _ (assign Sites.wordpress_sites (JArr items1) props) items1);
    [| done | done | apply collection_assign | by apply forallb_not_null_put | done].
  rewrite assign_assign. subst items1.
  by rewrite (put_again (λ s, url_matches (url_of site0) s) site0 items Hself).
Qed.

(** Instance of [upsert_twice_is_upsert_once] on the sample store. *)
Lemma upsert_twice_is_upsert_once_witness :
  ∃ d1,
    Sites.POST (Some ann_again) sample_disk = (json_response Sites.success_body, d1)
    ∧ Sites.POST (Some ann_again) d1 = (json_response Sites.success_body, d1).
Proof.
  apply (upsert_twice_is_upsert_once sample_disk [ann; bob] ann_again "https://a.example");
    [repeat split | reflexivity].
Defined.



Lemma filter_insert_outside {A} (Q : A → Prop) `{∀ x, Decision (Q x)}
    (l : list A) (i : nat) (x y : A) :
  l !! i = Some x → ¬ Q x → ¬ Q y → filter Q (<[i := y]> l) = filter Q l.
Proof.
  revert i. induction l as [|a l IH]; intros i Hi Hx Hy; [done|].
  destruct i as [|i]; simpl in Hi.
  - injection Hi as ->. simpl. by rewrite !filter_cons_False.
  - simpl. destruct (decide (Q a)).
    + rewrite !filter_cons_True by done. f_equal. by apply IH.
    + rewrite !filter_cons_False by done. by apply IH.
Qed.

Lemma filter_put (P : json → Prop) `{∀ s, Decision (P s)} x items :
  P x →
  filter (λ s, ¬ P s) (Sites.put (fst <$> list_find P items) x items)
  = filter (λ s, ¬ P s) items.
Proof.
  intros Hx. destruct (list_find P items) as [[i s]|] eqn:Ef; simpl.
  - apply list_find_Some in Ef as (Hi & Hs & _).
    apply (filter_insert_outside _ items i s x Hi); tauto.
  - rewrite filter_app, filter_cons_False by tauto. apply app_nil_r.
Qed.

Lemma url_matches_one_string u v s :
  url_matches (Some (JStr u)) s → url_matches (Some (JStr v)) s → u = v.
Proof. rewrite !url_matches_string. congruence. Qed.

Lemma count_url_put site0 u items v :
  url_of site0 = Some (JStr u) →
  count_url v (Sites.put (fst <$> list_find (λ s, url_matches (url_of site0) s) items)
                 site0 items)
  ≤ max 1 (count_url v items).
Proof.
  intros Hu. rewrite Hu. unfold count_url.
  assert (url_matches (Some (JStr u)) site0) as Hself by (by apply url_matches_string).
  destruct (list_find _ items) as [[i s]|] eqn:Ef; simpl.
  - apply list_find_Some in Ef as (Hi & Hs & _).
    destruct (decide (v = u)) as [->|Hne].
    + rewrite (length_filter_insert _ items i s site0 Hi Hs Hself). lia.
    + rewrite (filter_insert_outside _ items i s site0 Hi); [lia| |];
        intros Hv; apply Hne; symmetry.
      * exact (url_matches_one_string u v s Hs Hv).
      * exact (url_matches_one_string u v site0 Hself Hv).
  - apply list_find_None in Ef. rewrite filter_app, length_app.
    destruct (decide (v = u)) as [->|Hne].
    + rewrite (length_filter_none _ items Ef), filter_cons_True by done. simpl. lia.
    + rewrite filter_cons_False; [simpl; lia|].
      intros Hv. apply Hne. symmetry. exact (url_matches_one_string u v site0 Hself Hv).
Qed.

Lemma count_url_filter (Q : json → Prop) `{∀ s, Decision (Q s)} v items :
  count_url v (filter Q items) ≤ count_url v items.
Proof.
  unfold count_url. induction items as [|s rest IH]; [done|].
  destruct (decide (Q s)).
  - rewrite (filter_cons_True Q) by done.
    destruct (decide (url_matches (Some (JStr v)) s)).
    + rewrite !filter_cons_True by done. simpl. lia.
    + by rewrite !filter_cons_False.
  - rewrite (filter_cons_False Q) by done.
    destruct (decide (url_matches (Some (JStr v)) s)).
    + rewrite (filter_cons_True (λ s, url_matches _ s)) by done. simpl. lia.
    + by rewrite (filter_cons_False (λ s, url_matches _ s)).
Qed.

Lemma forallb_not_null_filter (Q : json → Prop) `{∀ s, Decision (Q s)} items :
  forallb not_null items = true → forallb not_null (filter Q items) = true.
Proof.
  induction items as [|s rest IH]; [done|]. simpl.
  intros [Hs Hrest]%andb_prop. destruct (decide (Q s)).
  - rewrite filter_cons_True by done. simpl. by rewrite Hs, IH.
  - rewrite filter_cons_False by done. by apply IH.
Qed.

Lemma POST_stays_usable d items site0 u :
  usable d items →
  url_of site0 = Some (JStr u) →
  ∃ d',
    Sites.POST (Some site0) d = (json_response Sites.success_body, d')
    ∧ usable d'
        (Sites.put (fst <$> list_find (λ s, url_matches (url_of site0) s) items)
           site0 items).
Proof.
  intros (Hst & Hw & Hnn) Hu.
  destruct (stored_inv _ _ Hst) as (props & Hf & Hc).
  assert (not_null site0 = true) as Hs by (by destruct site0).
  eexists. split; [by apply (POST_outcome d props items)|].
  split_and!; [apply stored_written | done | by apply forallb_not_null_put].
Qed.

(** X3: an upsert keeps the registry's invariant.  On a usable store in
    which no string url is carried twice, the upsert of a record with a
    string url succeeds and leaves a usable store in which no string url is
    carried twice. *)
Theorem upsert_keeps_urls_unique d items site0 u :
  usable d items →
  unique_urls items →
  url_of site0 = Some (JStr u) →
  ∃ d' items',
    Sites.POST (Some site0) d = (json_response Sites.success_body, d')
    ∧ usable d' items'
    ∧ unique_urls items'.
Proof.
  intros Hus Huniq Hu.
  destruct (POST_stays_usable d items site0 u Hus Hu) as (d' & Hpost & Hus').
  eexists d', _. split_and!; [exact Hpost | exact Hus' |].
  intros v. pose proof (count_url_put site0 u items v Hu). specialize (Huniq v). lia.
Qed.

(** Instance of [upsert_keeps_urls_unique] on the sample store. *)
Lemma upsert_keeps_urls_unique_witness :
  ∃ d' items',
    Sites.POST (Some bob_again) sample_disk = (json_response Sites.success_body, d')
    ∧ usable d' items'
    ∧ unique_urls items'.
Proof.
  apply (upsert_keeps_urls_unique sample_disk [ann; bob] bob_again "https://b.example");
    [repeat split | | reflexivity].
  intros v. unfold count_url. simpl.
  destruct (decide (url_matches (Some (JStr v)) ann)) as [Ha|Ha];
    destruct (decide (url_matches (Some (JStr v)) bob)) as [Hb|Hb].
  - apply url_matches_string in Ha, Hb. simpl in Ha, Hb. congruence.
  - rewrite filter_cons_True, filter_cons_False by done. simpl. lia.
  - rewrite filter_cons_False, filter_cons_True by done. simpl. lia.
  - rewrite !filter_cons_False by done. simpl. lia.
Defined.

Lemma DELETE_stays_usable d items data :
  usable d items →
  not_null data = true →
  ∃ d' url,
    Sites.DELETE (Some data) d = (json_response Sites.success_body, d')
    ∧ usable d' (filter (λ s, ¬ url_matches url s) items).
Proof.
  intros (Hst & Hw & Hnn) Hdata.
  destruct (stored_inv _ _ Hst) as (props & Hf & Hc).
  destruct (get_not_null data "url" Hdata) as (url & Hurl).
  rewrite (DELETE_outcome d props items Hf Hw Hc Hnn data url Hurl).
  destruct (collection_cases _ _ Hc) as [Harr | [Hfalsy ->]].
  - rewrite Harr. simpl. eexists _, url. split; [done|].
    split_and!; [apply stored_written | done | by apply forallb_not_null_filter].
  - rewrite Hfalsy. by exists d, url.
Qed.

(** X4: a delete keeps the registry's invariant.  On a usable store in
    which no string url is carried twice, a delete whose body is not [null]
    succeeds and leaves a usable store in which no string url is carried
    twice. *)
Theorem delete_keeps_urls_unique d items data :
  usable d items →
  unique_urls items →
  not_null data = true →
  ∃ d' items',
    Sites.DELETE (Some data) d = (json_response Sites.success_body, d')
    ∧ usable d' items'
    ∧ unique_urls items'.
Proof.
  intros Hus Huniq Hdata.
  destruct (DELETE_stays_usable d items data Hus Hdata) as (d' & url & Hdelete & Hus').
  eexists d', _. split_and!; [exact Hdelete | exact Hus' |].
  intros v. pose proof (count_url_filter (λ s, ¬ url_matches url s) v items).
  specialize (Huniq v). lia.
Qed.

(** Instance of [delete_keeps_urls_unique]: the store with [ann] alone. *)
Lemma delete_keeps_urls_unique_witness :
  let d := Disk (Document (JObj [("wordpress_sites", JArr [ann])])) true in
  ∃ d' items',
    Sites.DELETE (Some (JObj [("url", JStr "https://a.example")])) d
    = (json_response Sites.success_body, d')
    ∧ usable d' items'
    ∧ unique_urls items'.
Proof.
  apply (delete_keeps_urls_unique
           (Disk (Document (JObj [("wordpress_sites", JArr [ann])])) true) [ann]);
    [repeat split | | reflexivity].
  intros v. unfold count_url. pose proof (length_filter (λ s, url_matches (Some (JStr v)) s) [ann]).
  simpl in *. lia.
Defined.

Lemma unique_urls_nil : unique_urls [].
Proof. intros u. unfold count_url. simpl. lia. Qed.

(** X5: the invariant holds along any run.  Starting from a usable store
    in which no string url is carried twice, every request of a sequence of
    upserts of records with string urls and deletes with bodies other than
    [null] is answered 200 [{success: true}], and the store that results is
    usable, carries no string url twice, and is what the list then answers. *)
Theorem registry_run_keeps_invariant rs d items :
  usable d items →
  unique_urls items →
  forallb well_formed rs = true →
  ∃ items',
    Forall (λ r, r = json_response Sites.success_body) (handle_all rs d).1
    ∧ usable (handle_all rs d).2 items'
    ∧ unique_urls items'
    ∧ Sites.GET (handle_all rs d).2 = json_response (JArr items').
Proof.
  revert d items. induction rs as [|r rest IH]; intros d items Hus Huniq Hwf.
  - exists items. simpl. split_and!; try done. apply GET_usable, Hus.
  - simpl in Hwf. apply andb_prop in Hwf as [Hr Hrest].
    assert (∃ d1 items1, handle r d = (json_response Sites.success_body, d1)
                         ∧ usable d1 items1 ∧ unique_urls items1)
      as (d1 & items1 & Hstep & Hus1 & Huniq1).
    { destruct r as [record|data]; simpl in Hr |- *.
      - destruct (url_of record) as [[| | |u| |]|] eqn:Hu; try discriminate.
        destruct (POST_stays_usable d items record u Hus Hu) as (d1 & Hpost & Hus1).
        eexists d1, _. split_and!; [exact Hpost | exact Hus1 |].
        intros v. pose proof (count_url_put record u items v Hu).
        specialize (Huniq v). lia.
      - destruct (DELETE_stays_usable d items data Hus Hr) as (d1 & url & Hdel & Hus1).
        eexists d1, _. split_and!; [exact Hdel | exact Hus1 |].
        intros v. pose proof (count_url_filter (λ s, ¬ url_matches url s) v items).
        specialize (Huniq v). lia. }
    destruct (IH d1 items1 Hus1 Huniq1 Hrest) as (items' & Hall & Hus' & Huniq' & Hget).
    exists items'. simpl. rewrite Hstep.
    destruct (handle_all rest d1) as [resps d2]. simpl in *.
    split_and!; try done. by constructor.
Qed.

(** Instance of [registry_run_keeps_invariant]: four requests to a store
    that starts from the empty object. *)
Lemma registry_run_keeps_invariant_witness :
  let rs := [Upsert ann; Upsert bob; Upsert ann_again;
             Remove (JObj [("url", JStr "https://b.example")])] in
  let d := Disk (Document (JObj [])) true in
  ∃ items',
    Forall (λ r, r = json_response Sites.success_body) (handle_all rs d).1
    ∧ usable (handle_all rs d).2 items'
    ∧ unique_urls items'
    ∧ Sites.GET (handle_all rs d).2 = json_response (JArr items').
Proof.
  apply (registry_run_keeps_invariant _ (Disk (Document (JObj [])) true) []);
    [repeat split | apply unique_urls_nil | reflexivity].
Defined.

Example registry_run_sample :
  Sites.GET (handle_all [Upsert ann; Upsert bob; Upsert ann_again;
                         Remove (JObj [("url", JStr "https://b.example")])]
               (Disk (Document (JObj [])) true)).2
  = Response 200 (JArr [ann_again]).
Proof. reflexivity. Qed.

(** X6: a delete right after an upsert of the same string url leaves the
    records of the other urls, as a delete without the upsert would: on a
    usable store the stored collection ends as the stored one without the
    records of that url, and as it was when the url was new to it. *)
Theorem delete_after_upsert d items site0 u data :
  usable d items →
  url_of site0 = Some (JStr u) →
  get data "url" = Normal (Some (JStr u)) →
  ∃ d1 d2,
    Sites.POST (Some site0) d = (json_response Sites.success_body, d1)
    ∧ Sites.DELETE (Some data) d1 = (json_response Sites.success_body, d2)
    ∧ stored d2 = Some (filter (λ s, ¬ url_matches (Some (JStr u)) s) items)
    ∧ (Forall (λ s, ¬ url_matches (Some (JStr u)) s) items → stored d2 = Some items).
Proof.
  intros (Hst & Hw & Hnn) Hu Hdata.
  destruct (stored_inv _ _ Hst) as (props & Hf & Hc).
  assert (not_null site0 = true) as Hs by (by destruct site0).
  assert (url_matches (Some (JStr u)) site0) as Hself by (by apply url_matches_string).
  eexists _, _. split; [by apply (POST_outcome d props items)|].
  rewrite Hu. set (items1 := Sites.put _ site0 items).
  rewrite (DELETE_outcome
             (Disk (Document (JObj (assign Sites.wordpress_sites (JArr items1) props))) true)
             (assign Sites.wordpress_sites (JArr items1) props) items1
             eq_refl eq_refl (collection_assign _ _)
             (forallb_not_null_put _ _ _ Hnn Hs) data _ Hdata).
  rewrite own_prop_assign_eq. simpl. rewrite assign_assign.
  split; [done|]. rewrite stored_written. subst items1.
  rewrite (filter_put (λ s, url_matches (Some (JStr u)) s) site0 items Hself).
  split; [done|]. intros Hfresh. by rewrite (filter_all _ _ Hfresh).
Qed.

(** Instance of [delete_after_upsert]: a third url on the sample store. *)
Lemma delete_after_upsert_witness :
  let carl := site "https://c.example" "carl" "z" in
  ∃ d1 d2,
    Sites.POST (Some carl) sample_disk = (json_response Sites.success_body, d1)
    ∧ Sites.DELETE (Some (JObj [("url", JStr "https://c.example")])) d1
      = (json_response Sites.success_body, d2)
    ∧ stored d2 = Some [ann; bob].
Proof.
  destruct (delete_after_upsert sample_disk [ann; bob]
              (site "https://c.example" "carl" "z") "https://c.example"
              (JObj [("url", JStr "https://c.example")]))
    as (d1 & d2 & Hpost & Hdelete & _ & Hfresh); [repeat split | reflexivity..|].
  exists d1, d2. split_and!; try assumption.
  apply Hfresh. repeat constructor; simpl; tauto.
Defined.

(** X7: on a usable store, a delete with a body other than [null]
    succeeds, and the same delete sent again succeeds and leaves the file
    exactly as the first one left it. *)
Theorem delete_twice_is_delete_once d items data :
  usable d items →
  not_null data = true →
  ∃ d1,
    Sites.DELETE (Some data) d = (json_response Sites.success_body, d1)
    ∧ Sites.DELETE (Some data) d1 = (json_response Sites.success_body, d1).
Proof.
  intros (Hst & Hw & Hnn) Hdata.
  destruct (stored_inv _ _ Hst) as (props & Hf & Hc).
  destruct (get_not_null data "url" Hdata) as (url & Hurl).
  rewrite (DELETE_outcome d props items Hf Hw Hc Hnn data url Hurl).
  destruct (truthy (own_prop Sites.wordpress_sites props)) eqn:Et.
  - eexists. split; [done|].
    set (kept := filter (λ s, ¬ url_matches url s) items).
    rewrite (DELETE_outcome
               (Disk (Document (JObj (assign Sites.wordpress_sites (JArr kept) props))) true)
               (assign Sites.wordpress_sites (JArr kept) props) kept
               eq_refl eq_refl (collection_assign _ _)
               (forallb_not_null_filter _ _ Hnn) data url Hurl).
    rewrite own_prop_assign_eq. simpl. rewrite assign_assign.
    rewrite (filter_all (λ s, ¬ url_matches url s) kept); [done|].
    apply Forall_forall. intros s Hin. by apply list_elem_of_filter in Hin as [? _].
  - exists d. split; [done|].
    rewrite (DELETE_outcome d props items Hf Hw Hc Hnn data url Hurl). by rewrite Et.
Qed.

(** Instance of [delete_twice_is_delete_once] on the sample store. *)
Lemma delete_twice_is_delete_once_witness :
  ∃ d1,
    Sites.DELETE (Some (JObj [("url", JStr "https://a.example")])) sample_disk
    = (json_response Sites.success_body, d1)
    ∧ Sites.DELETE (Some (JObj [("url", JStr "https://a.example")])) d1
      = (json_response Sites.success_body, d1).
Proof.
  apply (delete_twice_is_delete_once sample_disk [ann; bob]);
    [repeat split | reflexivity].
Defined.

(** ** The registry: a [null] element, an array document *)

Lemma filter_out_null url items :
  JNull ∈ items → ∃ e, Sites.filter_out url items = Throws e.
Proof.
  induction items as [|s rest IH]; intros Hin; [by apply elem_of_nil in Hin|].
  apply elem_of_cons in Hin as [<-|Hin]; [by eexists|].
  destruct (IH Hin) as (e & He). cbn [Sites.filter_out]. rewrite He.
  destruct (get s "url"); by eexists.
Qed.

Lemma findIndex_from_null i site0 items :
  JNull ∈ items →
  Forall (λ s, not_null s = true → ¬ url_matches (url_of site0) s) items →
  ∃ e, Sites.findIndex_from i site0 items = Throws e.
Proof.
  revert i. induction items as [|s rest IH]; intros i Hin Hnone;
    [by apply elem_of_nil in Hin|].
  apply Forall_cons in Hnone as [Hs Hrest].
  apply elem_of_cons in Hin as [<-|Hin]; [by eexists|].
  cbn [Sites.findIndex_from]. unfold Sites.same_url.
  destruct (not_null s) eqn:Es; [|destruct s; try discriminate; by eexists].
  rewrite (get_url s Es). simpl.
  destruct (not_null site0) eqn:E0; [|destruct site0; try discriminate; by eexists].
  rewrite (get_url site0 E0). simpl. fold (url_matches (url_of site0) s).
  destruct (url_matches (url_of site0) s) eqn:Em; [|by apply IH].
  by destruct (Hs eq_refl).
Qed.

Lemma DELETE_on_null_element d props items payload :
  config_file d = Document (JObj props) →
  own_prop Sites.wordpress_sites props = Some (JArr items) →
  JNull ∈ items →
  Sites.DELETE payload d
  = (json_response_status (Sites.error_body "Failed to delete WordPress site") 500, d).
Proof.
  intros Hf Hp Hin. unfold Sites.DELETE, read_config.
  destruct payload as [data|]; simpl; [|done].
  destruct (get data "url") as [url|]; simpl; [|done].
  rewrite Hf. simpl. rewrite Hp. simpl.
  destruct (filter_out_null url items Hin) as (e & ->). done.
Qed.

Lemma POST_on_null_element d props items payload :
  config_file d = Document (JObj props) →
  own_prop Sites.wordpress_sites props = Some (JArr items) →
  JNull ∈ items →
  (∀ site0, payload = Some site0 → Forall (λ s, not_null s = true → ¬ url_matches (url_of site0) s) items) →
  Sites.POST payload d
  = (json_response_status (Sites.error_body "Failed to save WordPress site") 500, d).
Proof.
  intros Hf Hp Hin Hnone. unfold Sites.POST, read_config.
  destruct payload as [site0|]; simpl; [|done].
  rewrite Hf. simpl. rewrite Hp. simpl. rewrite Hp. simpl.
  destruct (findIndex_from_null 0 site0 items Hin (Hnone site0 eq_refl)) as (e & He).
  unfold Sites.findIndex. rewrite He. done.
Qed.

(** X8: when the stored collection has a [null] element, every delete is
    answered 500 and leaves the file as it is, whatever its body; so is
    every upsert whose url no stored element other than [null] carries.
    The element cannot be removed through the routes. *)
Theorem null_element_blocks_writes d props items :
  config_file d = Document (JObj props) →
  own_prop Sites.wordpress_sites props = Some (JArr items) →
  JNull ∈ items →
  (∀ payload,
     Sites.DELETE payload d
     = (json_response_status (Sites.error_body "Failed to delete WordPress site") 500, d))
  ∧ (∀ site0,
     Forall (λ s, not_null s = true → ¬ url_matches (url_of site0) s) items →
     Sites.POST (Some site0) d
     = (json_response_status (Sites.error_body "Failed to save WordPress site") 500, d)).
Proof.
  intros Hf Hp Hin. split.
  - intros payload. by apply (DELETE_on_null_element d props items).
  - intros site0 Hnone. apply (POST_on_null_element d props items); try done.
    by intros ? [= <-].
Qed.

(** Instance of [null_element_blocks_writes]: [null] after [ann]; the delete
    of [ann] and the upsert of [bob] both fail. *)
Lemma null_element_blocks_writes_witness :
  let d := Disk (Document (JObj [("wordpress_sites", JArr [ann; JNull])])) true in
  Sites.DELETE (Some (JObj [("url", JStr "https://a.example")])) d
  = (json_response_status (Sites.error_body "Failed to delete WordPress site") 500, d)
  ∧ Sites.POST (Some bob) d
    = (json_response_status (Sites.error_body "Failed to save WordPress site") 500, d).
Proof.
  destruct (null_element_blocks_writes
              (Disk (Document (JObj [("wordpress_sites", JArr [ann; JNull])])) true)
              [("wordpress_sites", JArr [ann; JNull])] [ann; JNull] eq_refl eq_refl)
    as [Hdelete Hpost].
  { apply (list_elem_of_lookup_2 _ 1). reflexivity. }
  split; [apply Hdelete|]. apply Hpost. repeat constructor; simpl; tauto || discriminate.
Defined.

(** X9: the routes can put the [null] there themselves.  On a writable
    object document whose collection is empty or absent, an upsert whose
    body is the JSON value [null] is answered 200 and stores [[null]]; from
    then on every upsert and every delete is answered 500 and the file stays
    as it is, while the list keeps answering [[null]]. *)
Theorem null_upsert_blocks_the_registry d props :
  config_file d = Document (JObj props) →
  writable d = true →
  collection props = Some [] →
  ∃ d1,
    Sites.POST (Some JNull) d = (json_response Sites.success_body, d1)
    ∧ Sites.GET d1 = json_response (JArr [JNull])
    ∧ (∀ payload,
         Sites.POST payload d1
         = (json_response_status (Sites.error_body "Failed to save WordPress site") 500, d1))
    ∧ (∀ payload,
         Sites.DELETE payload d1
         = (json_response_status (Sites.error_body "Failed to delete WordPress site") 500,
            d1)).
Proof.
  intros Hf Hw Hc.
  exists (Disk (Document (JObj (assign Sites.wordpress_sites (JArr [JNull]) props))) true).
  assert (JNull ∈ [JNull]) as Hin by (by apply (list_elem_of_lookup_2 _ 0)).
  split_and!.
  - unfold Sites.POST, read_config, write_config. rewrite Hf, Hw. simpl.
    destruct (collection_cases _ _ Hc) as [Harr | [Hfalsy _]].
    + rewrite Harr. simpl. rewrite Harr. simpl. reflexivity.
    + rewrite Hfalsy. fresh_collection.
  - eapply GET_stored; [done|]. apply own_prop_assign_eq.
  - intros payload.
    apply (POST_on_null_element _ (assign Sites.wordpress_sites (JArr [JNull]) props)
             [JNull]); [done | apply own_prop_assign_eq | done |].
    intros site0 _. constructor; [discriminate | constructor].
  - intros payload.
    apply (DELETE_on_null_element _ (assign Sites.wordpress_sites (JArr [JNull]) props)
             [JNull]); [done | apply own_prop_assign_eq | done].
Qed.

(** Instance of [null_upsert_blocks_the_registry]: a store that starts
    from the empty object. *)
Lemma null_upsert_blocks_the_registry_witness :
  ∃ d1,
    Sites.POST (Some JNull) (Disk (Document (JObj [])) true)
    = (json_response Sites.success_body, d1)
    ∧ Sites.GET d1 = json_response (JArr [JNull])
    ∧ (∀ payload,
         Sites.POST payload d1
         = (json_response_status (Sites.error_body "Failed to save WordPress site") 500, d1))
    ∧ (∀ payload,
         Sites.DELETE payload d1
         = (json_response_status (Sites.error_body "Failed to delete WordPress site") 500,
            d1)).
Proof.
  apply (null_upsert_blocks_the_registry (Disk (Document (JObj [])) true) []);
    reflexivity.
Defined.



(** ** The connectivity check: when it answers connected *)

Lemma get_field x k : not_null x = true → get x k = Normal (field k x).
Proof. by destruct x. Qed.

Lemma POST_probe_answer site0 net :
  TestConnection.POST (Some site0) net
  = (if probe_ok site0 net
     then json_response (body (TestConnection.POST (Some site0) net))
     else json_response_status TestConnection.failure_body 500)
  ∧ get (body (TestConnection.POST (Some site0) net)) "connected"
    = Normal (Some (JBool (probe_ok site0 net))).
Proof.
  unfold probe_ok, TestConnection.POST. cbn -[Nat.leb Nat.ltb].
  destruct (not_null site0) eqn:E0; [|by destruct site0].
  rewrite !(get_field site0) by done. cbn -[Nat.leb Nat.ltb].
  destruct (net _ _ _) as [code hs d| |]; [|done..].
  unfold TestConnection.axios_get.
  generalize ((200 <=? code) && (code <? 300)). intros [|]; [|done].
  destruct d as [| | |[]| |]; cbn; try done;
    by destruct (TestConnection.header "x-wp-total" hs).
Qed.

(** X11: the check answers [connected: true], with status 200, exactly
    when its body is not [null] and the WordPress side answers with a
    status in [200, 300) and data other than [null]; in every other case,
    a success status with a [null] body included, it answers the 500
    failure body. *)
Theorem probe_connected_exactly_when (site0 : json) (net : TestConnection.internet) :
  get (body (TestConnection.POST (Some site0) net)) "connected"
  = Normal (Some (JBool (probe_ok site0 net)))
  ∧ status (TestConnection.POST (Some site0) net) = (if probe_ok site0 net then 200 else 500)
  ∧ (probe_ok site0 net = false →
     TestConnection.POST (Some site0) net
     = json_response_status TestConnection.failure_body 500).
Proof.
  destruct (POST_probe_answer site0 net) as [Hr Hc].
  split; [exact Hc|]. rewrite Hr. by destruct (probe_ok site0 net).
Qed.

Example probe_null_data :
  TestConnection.POST (Some ann) (λ _ _ _, TestConnection.Responded 200 [] JNull)
  = Response 500 (JObj [("connected", JBool false);
                        ("error", JStr "Failed to connect to WordPress site")]).
Proof. reflexivity. Qed.

(** ** The component against the two routes *)

Lemma testConnection_result c b :
  Manager.testConnection c b
  = (Some (JBool (Manager.reachable b && candidate_ok c (Manager.wordpress b))), b,
     [Manager.Fetch "/api/wordpress/test-connection" "POST"
        (Some (literal (Manager.fields c)))]).
Proof.
  unfold Manager.testConnection, Manager.fetch_json.
  destruct (Manager.reachable b); [|done].
  cbn [Manager.serve String.eqb Ascii.eqb Bool.eqb].
  destruct (POST_probe_answer (literal (Manager.fields c)) (Manager.wordpress b))
    as [_ ->].
  reflexivity.
Qed.

(** X12: [testConnection] always resolves to a boolean and leaves the
    server side as it is: [true] exactly when the dashboard is reached and
    the WordPress site answers the candidate's url and credentials with a
    status in [200, 300) and data other than [null], [false] otherwise. *)
Theorem testConnection_is_a_boolean (c : Manager.WordPressSite) (b : Manager.backend) :
  Manager.testConnection c b
  = (Some (JBool (Manager.reachable b && candidate_ok c (Manager.wordpress b))), b,
     [Manager.Fetch "/api/wordpress/test-connection" "POST"
        (Some (literal (Manager.fields c)))]).
Proof.
  unfold Manager.testConnection, Manager.fetch_json.
  destruct (Manager.reachable b); [|reflexivity].
  cbn [Manager.serve String.eqb Ascii.eqb Bool.eqb].
  destruct (POST_probe_answer (literal (Manager.fields c)) (Manager.wordpress b))
    as [_ Hconnected].
  rewrite Hconnected. reflexivity.
Qed.

(** X13: [addSite] on a complete form always adds the candidate, whether
    the check succeeds or not: the record appended carries [is_connected]
    equal to the result of the check, the form is reset, [loading] is off,
    and the only effects are the one call to the check and the success
    toast. *)
Theorem addSite_adds_unconnected_sites_too (st : Manager.state) (b : Manager.backend) :
  Manager.url (Manager.newSite st) ≠ "" →
  Manager.username (Manager.newSite st) ≠ "" →
  Manager.password (Manager.newSite st) ≠ "" →
  let c := Manager.newSite st in
  let connected := Manager.reachable b && candidate_ok c (Manager.wordpress b) in
  let record := Manager.merged c (Some (JBool connected)) in
  Manager.addSite st b
  = (Manager.State (Manager.sites st ++ [record]) false Manager.blank, b,
     [Manager.Fetch "/api/wordpress/test-connection" "POST"
        (Some (literal (Manager.fields c)));
      Manager.ToastSuccess "WordPress site added successfully"])
  ∧ get record "is_connected" = Normal (Some (JBool connected))
  ∧ get record "url" = Normal (Some (JStr (Manager.url c))).
Proof.
  intros Hu Hn Hp c connected record. split; [|by split].
  unfold Manager.addSite. fold c.
  destruct (Manager.empty (Manager.url c)) eqn:Eu; [by apply empty_spec in Eu|].
  destruct (Manager.empty (Manager.username c)) eqn:En; [by apply empty_spec in En|].
  destruct (Manager.empty (Manager.password c)) eqn:Ep; [by apply empty_spec in Ep|].
  simpl. by rewrite testConnection_result.
Qed.

(** Instance of [addSite_adds_unconnected_sites_too]: the WordPress site
    is down, and the candidate is listed all the same. *)
Lemma addSite_adds_unconnected_sites_too_witness :
  let st := Manager.State [bob] false candidate in
  let b := Manager.Backend sample_disk unreachable_host true in
  Manager.addSite st b
  = (Manager.State [bob; Manager.merged candidate (Some (JBool false))] false Manager.blank,
     b,
     [Manager.Fetch "/api/wordpress/test-connection" "POST"
        (Some (literal (Manager.fields candidate)));
      Manager.ToastSuccess "WordPress site added successfully"]).
Proof.
  apply (addSite_adds_unconnected_sites_too (Manager.State [bob] false candidate)
           (Manager.Backend sample_disk unreachable_host true));
    discriminate.
Defined.

(** X14: [loadSites] raises its error toast only when the dashboard is not
    reached.  When it is reached, the body of the list route goes to
    [setSites] whatever the status: on a store failure that body is the
    object [{error: "Failed to load WordPress sites"}], and no toast is
    raised. *)
Theorem loadSites_outcomes (b : Manager.backend) :
  (Manager.reachable b = true →
   Manager.loadSites b
   = (Some (body (Sites.GET (Manager.files b))), b,
      [Manager.Fetch "/api/wordpress/sites" "GET" None]))
  ∧ (Manager.reachable b = true →
     status (Sites.GET (Manager.files b)) ≠ 200 →
     Manager.loadSites b
     = (Some (Sites.error_body "Failed to load WordPress sites"), b,
        [Manager.Fetch "/api/wordpress/sites" "GET" None]))
  ∧ (Manager.reachable b = false →
     Manager.loadSites b
     = (None, b,
        [Manager.Fetch "/api/wordpress/sites" "GET" None;
         Manager.ToastError "Failed to load WordPress sites"])).
Proof.
  unfold Manager.loadSites, Manager.fetch_json.
  split_and!; intros Hr; rewrite Hr; cbn [Manager.serve String.eqb Ascii.eqb Bool.eqb];
    [done | | done].
  intros Hstatus. do 3 f_equal.
  unfold Sites.GET, read_config in *.
  by destruct (config_file (Manager.files b)) as [| |[]].
Qed.

Example loadSites_without_file :
  Manager.loadSites (Manager.Backend (Disk Missing true) two_posts true)
  = (Some (JObj [("error", JStr "Failed to load WordPress sites")]),
     Manager.Backend (Disk Missing true) two_posts true,
     [Manager.Fetch "/api/wordpress/sites" "GET" None]).
Proof. reflexivity. Qed.

(** X15: [removeSite] on a list without [null] elements drops every
    record whose url is the target, keeps the others in their order,
    touches neither [loading] nor the form, and raises the success toast,
    also when nothing was dropped; on a list with a [null] element it
    raises the error toast and changes nothing. *)
Theorem removeSite_outcomes (target : string) (st : Manager.state) (b : Manager.backend) :
  (forallb not_null (Manager.sites st) = true →
   Manager.removeSite target st b
   = (Manager.State
        (filter (λ s, ¬ url_matches (Some (JStr target)) s) (Manager.sites st))
        (Manager.loading st) (Manager.newSite st),
      b, [Manager.ToastSuccess "WordPress site removed successfully"]))
  ∧ (JNull ∈ Manager.sites st →
     Manager.removeSite target st b
     = (st, b, [Manager.ToastError "Failed to remove WordPress site"])).
Proof.
  unfold Manager.removeSite. split.
  - intros Hnn. by rewrite (filter_out_spec _ _ Hnn).
  - intros Hin. by destruct (filter_out_null (Some (JStr target)) _ Hin) as (e & ->).
Qed.

Example remove_past_a_null :
  Manager.removeSite "https://a.example" (Manager.State [ann; JNull] false candidate)
    sample_backend
  = (Manager.State [ann; JNull] false candidate, sample_backend,
     [Manager.ToastError "Failed to remove WordPress site"]).
Proof. reflexivity. Qed.

(** X16: removing the url just added undoes the addition and more: after
    an [addSite] on a complete form, [removeSite] of the candidate's url
    leaves the records that [sites] held for other urls, so the list is back
    to what it was when the url was new to it, and has lost the older
    records of that url when it was not. *)
Theorem remove_after_add (st : Manager.state) (b : Manager.backend) :
  Manager.url (Manager.newSite st) ≠ "" →
  Manager.username (Manager.newSite st) ≠ "" →
  Manager.password (Manager.newSite st) ≠ "" →
  forallb not_null (Manager.sites st) = true →
  let u := Manager.url (Manager.newSite st) in
  let st1 := (Manager.addSite st b).1.1 in
  let st2 := (Manager.removeSite u st1 b).1.1 in
  Manager.sites st2 = filter (λ s, ¬ url_matches (Some (JStr u)) s) (Manager.sites st)
  ∧ (Forall (λ s, ¬ url_matches (Some (JStr u)) s) (Manager.sites st) →
     Manager.sites st2 = Manager.sites st).
Proof.
  intros Hu Hn Hp Hnn u st1 st2.
  destruct (addSite_complete st b Hu Hn Hp) as (v & p & Hadd).
  assert (Manager.sites st2 = filter (λ s, ¬ url_matches (Some (JStr u)) s) (Manager.sites st))
    as Hsites.
  { subst st2 st1. rewrite Hadd. unfold Manager.removeSite. simpl.
    rewrite filter_out_spec.
    - simpl. rewrite filter_app, filter_cons_False; [apply app_nil_r|].
      intros Hne. apply Hne. by apply url_matches_string.
    - rewrite forallb_app, Hnn. reflexivity. }
  split; [exact Hsites|]. intros Hfresh. rewrite Hsites. by apply filter_all.
Qed.

(** Instance of [remove_after_add]: the candidate's url is already listed
    once, and both records go. *)
Lemma remove_after_add_witness :
  let st := Manager.State [ann; bob] false candidate in
  let st1 := (Manager.addSite st sample_backend).1.1 in
  let st2 := (Manager.removeSite "https://a.example" st1 sample_backend).1.1 in
  Manager.sites st2
  = filter (λ s, ¬ url_matches (Some (JStr "https://a.example")) s) [ann; bob]
  ∧ (Forall (λ s, ¬ url_matches (Some (JStr "https://a.example")) s) [ann; bob] →
     Manager.sites st2 = [ann; bob]).
Proof.
  apply (remove_after_add (Manager.State [ann; bob] false candidate) sample_backend);
    [discriminate.. | reflexivity].
Defined.

Example remove_after_add_sample :
  Manager.sites
    (Manager.removeSite "https://a.example"
       (Manager.addSite (Manager.State [ann; bob] false candidate) sample_backend).1.1
       sample_backend).1.1
  = [bob].
Proof. reflexivity. Qed.

(** ** The registry: bodies without a url, bodies that are no records *)

(** X17: a delete whose body has no [url] property (an empty object, a
    number, a string) compares every stored url with [undefined]: on a
    usable store it succeeds, removes exactly the stored elements that have
    no url themselves, and keeps every element that has one. *)
Theorem delete_without_url d items data :
  usable d items →
  get data "url" = Normal None →
  ∃ d',
    Sites.DELETE (Some data) d = (json_response Sites.success_body, d')
    ∧ stored d' = Some (filter (λ s, url_of s ≠ None) items).
Proof.
  intros (Hst & Hw & Hnn) Hurl.
  destruct (stored_inv _ _ Hst) as (props & Hf & Hc).
  rewrite (DELETE_outcome d props items Hf Hw Hc Hnn data None Hurl).
  assert (filter (λ s, ¬ url_matches None s) items = filter (λ s, url_of s ≠ None) items)
    as Hsame.
  { apply list_filter_iff. intros s. unfold url_matches.
    destruct (url_of s) as [[]|]; simpl; split; try done; tauto. }
  destruct (collection_cases _ _ Hc) as [Harr | [Hfalsy ->]].
  - rewrite Harr. simpl. eexists. split; [done|]. by rewrite stored_written, Hsame.
  - rewrite Hfalsy. exists d. split; [done|]. by rewrite Hst.
Qed.

(** Instance of [delete_without_url]: the body [{}] against a store that
    holds [ann] and an object without url. *)
Lemma delete_without_url_witness :
  let d := Disk (Document (JObj [("wordpress_sites",
                                 JArr [ann; JObj [("category", JStr "draft")]])])) true in
  ∃ d',
    Sites.DELETE (Some (JObj [])) d = (json_response Sites.success_body, d')
    ∧ stored d' = Some [ann].
Proof.
  apply (delete_without_url
           (Disk (Document (JObj [("wordpress_sites",
                                   JArr [ann; JObj [("category", JStr "draft")]])])) true)
           [ann; JObj [("category", JStr "draft")]] (JObj []));
    [repeat split | reflexivity].
Defined.



(** ** The connectivity check: what it looks at *)

(** X19: the answer of the check depends on its body only through the
    [url], [username] and [password] properties: two bodies other than
    [null] that agree on the three get the same response. *)
Theorem probe_reads_three_fields (x y : json) (net : TestConnection.internet) :
  not_null x = true →
  not_null y = true →
  field "url" x = field "url" y →
  field "username" x = field "username" y →
  field "password" x = field "password" y →
  TestConnection.POST (Some x) net = TestConnection.POST (Some y) net.
Proof.
  intros Hx Hy Hu Hn Hp. unfold TestConnection.POST. cbn -[Nat.leb Nat.ltb].
  rewrite !(get_field x), !(get_field y) by done. by rewrite Hu, Hn, Hp.
Qed.

(** Instance of [probe_reads_three_fields]: the candidate with and
    without the properties the form adds. *)
Lemma probe_reads_three_fields_witness :
  TestConnection.POST (Some ann) two_posts
  = TestConnection.POST
      (Some (JObj [("url", JStr "https://a.example"); ("username", JStr "ann");
                   ("password", JStr "x"); ("is_connected", JBool false)]))
      two_posts.
Proof.
  apply (probe_reads_three_fields ann
           (JObj [("url", JStr "https://a.example"); ("username", JStr "ann");
                  ("password", JStr "x"); ("is_connected", JBool false)]) two_posts);
    reflexivity.
Defined.


(** ** What the claims C3 and C4 leave out *)

Example parse_rounds_long_integers :
  Text.nearest_double 9007199254740993 = 9007199254740992%Z
  ∧ Text.nearest_double 9007199254740995 = 9007199254740996%Z
  ∧ Text.nearest_double (-9007199254740993) = (-9007199254740992)%Z
  ∧ Text.nearest_double 9007199254740991 = 9007199254740991%Z
  ∧ Text.nearest_double 1152921504606846977 = 1152921504606846976%Z.
Proof. repeat split. Qed.

Example parse_orders_and_overwrites :
  Text.parse (JObj [("b", JNum 1); ("10", JNum 2); ("b", JNum 3); ("2", JNum 4);
                    ("01", JNum 5)])
  = JObj [("2", JNum 4); ("10", JNum 2); ("b", JNum 3); ("01", JNum 5)].
Proof. reflexivity. Qed.


